(** * Weather MCP server: a shallow embedding of [src/weather_server.py]

    The development follows the layout of the Python module: data models,
    the WMO weather-code table, the Open-Meteo client and the two tool
    handlers.  Python floats are IEEE 754 binary64 values (Rocq's primitive
    floats), Python ints are [Z], dicts are finite maps, and exceptions and
    the HTTP exchange are threaded through a small error/trace monad.

    Logging calls are left out: they write to stderr and never influence a
    returned value or a raised exception. *)

From Stdlib Require Import ZArith String Ascii List Floats Lia.
From stdpp Require Import gmap strings list fin_maps pretty.

Set Warnings "-inexact-float,-register-all".
Local Open Scope string_scope.
Local Open Scope Z_scope.

(** ** Strings *)

(** The decimal text of an int: its digits, with a leading minus sign for
    negatives.  [str(n)] and an f-string field yield it when the int is
    short enough, and raise otherwise: see [py_str_int] below, which is
    what the code that renders an int of any size goes through. *)
Definition str_int (n : Z) : string := pretty n.

(** CPython refuses to convert an int of more than
    [sys.int_info.default_max_str_digits] digits to text; the module
    leaves that limit at its default. *)
Definition int_max_str_digits : Z := 4300.

(** The least int with more digits than that, as a numeral. *)
Definition int_str_bound : Z := Eval vm_compute in 10 ^ int_max_str_digits.

(** The int has at most [int_max_str_digits] decimal digits. *)
Definition within_str_limit (n : Z) : bool := Z.abs n <? int_str_bound.
Arguments within_str_limit : simpl never.

(** [needle in hay] for two Python strings. *)
Fixpoint substringb (needle hay : string) : bool :=
  String.prefix needle hay ||
  match hay with
  | EmptyString => false
  | String _ rest => substringb needle rest
  end.

Definition contains (needle hay : string) : Prop := substringb needle hay = true.

Definition starts_with (pre s : string) : Prop := String.prefix pre s = true.

(** [sep.join(parts)] *)
Fixpoint join (sep : string) (parts : list string) : string :=
  match parts with
  | [] => ""
  | [p] => p
  | p :: rest => p ++ sep ++ join sep rest
  end.

(** The line-feed character written [\n] in the Python source. *)
Definition nl : string := String (ascii_of_nat 10) EmptyString.

(** ** JSON values as Python objects

    What [response.json()] yields: [None], [bool], [int], [float], [str],
    [list] and [dict] with string keys.  A [str] is the sequence of its
    characters, one [ascii] each. *)
Inductive json : Type :=
| JNull
| JBool (b : bool)
| JInt (n : Z)
| JFloat (x : float)
| JStr (s : string)
| JArr (xs : list json)
| JObj (kvs : gmap string json).

(** ** Exceptions

    The exceptions that the statements of the module, the built-ins it
    calls and the HTTP client can raise; all derive from [Exception].
    Signals delivered from outside the call (task cancellation, interpreter
    exit) are no part of the model.  The handlers tell three groups apart:
    [ValueError] and its subclasses, [httpx.HTTPStatusError], and the
    rest. *)
Inductive exn_class : Type :=
| ValueError
| JSONDecodeError      (* json.JSONDecodeError, a ValueError *)
| ValidationError      (* pydantic.ValidationError, a ValueError *)
| RuntimeError
| KeyError
| IndexError
| TypeError
| OverflowError
| AttributeError
| TransportError       (* httpx.TransportError: connect, read, timeout, ... *)
| OtherException (name : string).

Definition is_ValueError (c : exn_class) : bool :=
  match c with
  | ValueError | JSONDecodeError | ValidationError => true
  | _ => false
  end.

(** An exception object: its class and [str(exc)]; an
    [httpx.HTTPStatusError] also carries [exc.response.status_code]. *)
Inductive exn : Type :=
| Raised (cls : exn_class) (msg : string)
| HTTPStatusError (status_code : Z) (msg : string).

Definition str_exn (e : exn) : string :=
  match e with
  | Raised _ msg => msg
  | HTTPStatusError _ msg => msg
  end.

(** Failures raised by the interpreter or by a library rather than by a
    [raise] statement of the module.  Their message texts are not fixed by
    the module, see [fault_msg] below. *)
Inductive fault : Type :=
| NotAContainer (v : json)            (* "error" in v *)
| NotSubscriptable (v : json)         (* v[...] on None, bool, int, float *)
| BadSubscript (v : json)             (* v["key"] on a list or a str *)
| MissingKey (key : string)           (* d["key"] *)
| MissingIndex (i : nat)              (* d[i] on a dict with string keys *)
| IndexOutOfRange (v : json)          (* v[i] past the end *)
| NoLen (v : json)                    (* len(v) *)
| NoGet (v : json)                    (* v.get(...) *)
| BadIntArgument (v : json)           (* int(v) *)
| BadIntLiteral (s : string)          (* int("x") *)
| IntOfNaN
| IntOfInfinity
| BadFloatArgument (v : json)         (* float(v) *)
| BadFloatLiteral (s : string)        (* float("x") *)
| IntTooLargeForFloat (n : Z)
| IsoArgumentNotStr (v : json)        (* fromisoformat(v) *)
| BadIsoFormat (s : string)
| BodyNotJSON                         (* response.json() *)
| IntTooLongForStr                    (* str(n), f"{n}" beyond the digit limit *)
| InvalidModel (model : string) (fields : list string).
                                      (* pydantic: Field(ge=, le=) violated *)

(** ** Dates *)

Record date : Type := mk_date { year : Z; month : Z; day : Z }.

Inductive tzinfo : Type := UTC | FixedOffset (seconds : Z).

Record datetime : Type := mk_datetime {
  dt_date : date;
  hour : Z; minute : Z; second : Z; microsecond : Z;
  dt_tzinfo : option tzinfo
}.

(** [dt.replace(tzinfo=tz)] *)
Definition replace_tzinfo (dt : datetime) (tz : tzinfo) : datetime :=
  {| dt_date := dt_date dt; hour := hour dt; minute := minute dt;
     second := second dt; microsecond := microsecond dt;
     dt_tzinfo := Some tz |}.

(** ** The Python runtime

    Conversions and message texts that belong to the interpreter and its
    libraries, not to the module.  Everything below is stated for an
    arbitrary runtime. *)
Class PyRuntime : Type := {
  float_repr : float -> string;                 (* str(x) for a float *)
  container_repr : json -> string;              (* str(v) for a list or dict *)
  float_of_str : string -> option float;        (* float(s); None: ValueError *)
  int_of_str : string -> option Z;              (* int(s); None: ValueError *)
  date_fromisoformat : string -> option date;
  date_str : date -> string;                    (* str(d) *)
  datetime_fromisoformat : string -> option datetime;
  datetime_isoformat : datetime -> string;
  fault_msg : fault -> string;                  (* str(exc) of a fault *)
  http_status_msg : Z -> string                 (* str(exc) of an HTTPStatusError *)
}.

(** ** The error monad of pure code *)

Definition result (A : Type) : Type := exn + A.

Definition ok {A : Type} (x : A) : result A := inr x.
Definition throw {A : Type} (e : exn) : result A := inl e.

#[global] Instance result_ret : MRet result := fun A x => inr x.
#[global] Instance result_bind : MBind result :=
  fun A B f m => match m with inl e => inl e | inr x => f x end.

(** ** Python built-ins on JSON values *)

Section Builtins.
Context `{PyRuntime}.

Definition fault_class (f : fault) : exn_class :=
  match f with
  | NotAContainer _ | NotSubscriptable _ | BadSubscript _ | NoLen _
  | BadIntArgument _ | BadFloatArgument _ | IsoArgumentNotStr _ => TypeError
  | MissingKey _ | MissingIndex _ => KeyError
  | IndexOutOfRange _ => IndexError
  | NoGet _ => AttributeError
  | BadIntLiteral _ | IntOfNaN | BadFloatLiteral _ | BadIsoFormat _
  | IntTooLongForStr => ValueError
  | IntOfInfinity | IntTooLargeForFloat _ => OverflowError
  | BodyNotJSON => JSONDecodeError
  | InvalidModel _ _ => ValidationError
  end.

Definition raise_fault {A : Type} (f : fault) : result A :=
  throw (Raised (fault_class f) (fault_msg f)).

(** [str(n)] and [f"{n}"] for an int. *)
Definition py_str_int (n : Z) : result string :=
  if within_str_limit n then ok (str_int n) else raise_fault IntTooLongForStr.

(** [key in v] *)
Definition py_in (key : string) (v : json) : result bool :=
  match v with
  | JObj kvs => ok (bool_decide (is_Some (kvs !! key)))
  | JArr xs =>
      ok (existsb (fun x => match x with
                            | JStr s => bool_decide (s = key)
                            | _ => false
                            end) xs)
  | JStr s => ok (substringb key s)
  | _ => raise_fault (NotAContainer v)
  end.

(** [v[key]] with a string key *)
Definition py_getitem (v : json) (key : string) : result json :=
  match v with
  | JObj kvs =>
      match kvs !! key with
      | Some x => ok x
      | None => raise_fault (MissingKey key)
      end
  | JArr _ | JStr _ => raise_fault (BadSubscript v)
  | _ => raise_fault (NotSubscriptable v)
  end.

(** [v[i]] with an index drawn from [range(...)] *)
Definition py_index (v : json) (i : nat) : result json :=
  match v with
  | JArr xs =>
      match xs !! i with
      | Some x => ok x
      | None => raise_fault (IndexOutOfRange v)
      end
  | JStr s =>
      match String.get i s with
      | Some c => ok (JStr (String c EmptyString))
      | None => raise_fault (IndexOutOfRange v)
      end
  | JObj _ => raise_fault (MissingIndex i)
  | _ => raise_fault (NotSubscriptable v)
  end.

(** [len(v)] *)
Definition py_len (v : json) : result nat :=
  match v with
  | JArr xs => ok (length xs)
  | JStr s => ok (String.length s)
  | JObj kvs => ok (size kvs)
  | _ => raise_fault (NoLen v)
  end.

(** Truth value of [v], as tested by [and] and [if]. *)
Definition py_bool (v : json) : bool :=
  match v with
  | JNull => false
  | JBool b => b
  | JInt n => negb (n =? 0)%Z
  | JFloat x => negb (PrimFloat.eqb x 0%float)
  | JStr s => negb (String.length s =? 0)%nat
  | JArr xs => negb (length xs =? 0)%nat
  | JObj kvs => negb (size kvs =? 0)%nat
  end.

(** [d.get(key, default)] *)
Definition py_get (v : json) (key : string) (default : json) : result json :=
  match v with
  | JObj kvs => ok (match kvs !! key with Some x => x | None => default end)
  | _ => raise_fault (NoGet v)
  end.

(** [str(v)], as an f-string field renders it. *)
Definition py_str (v : json) : string :=
  match v with
  | JNull => "None"
  | JBool true => "True"
  | JBool false => "False"
  | JInt n => str_int n
  | JFloat x => float_repr x
  | JStr s => s
  | JArr _ | JObj _ => container_repr v
  end.

(** The integer part of a finite float, rounding towards zero. *)
Definition trunc_finite (s : bool) (m : positive) (e : Z) : Z :=
  let a := if 0 <=? e then Z.pos m * 2 ^ e else Z.pos m / 2 ^ (- e) in
  if s then - a else a.

(** [int(v)] *)
Definition py_int (v : json) : result Z :=
  match v with
  | JInt n => ok n
  | JBool b => ok (if b then 1 else 0)
  | JFloat x =>
      match Prim2SF x with
      | S754_zero _ => ok 0
      | S754_finite s m e => ok (trunc_finite s m e)
      | S754_infinity _ => raise_fault IntOfInfinity
      | S754_nan => raise_fault IntOfNaN
      end
  | JStr s =>
      match int_of_str s with
      | Some n => ok n
      | None => raise_fault (BadIntLiteral s)
      end
  | _ => raise_fault (BadIntArgument v)
  end.

(** The float nearest to an int (ties to even). *)
Definition float_of_Z (n : Z) : float :=
  SF2Prim (binary_normalize prec emax n 0 false).

(** [float(v)] *)
Definition py_float (v : json) : result float :=
  match v with
  | JFloat x => ok x
  | JInt n =>
      let x := float_of_Z n in
      if PrimFloat.is_infinity x then raise_fault (IntTooLargeForFloat n)
      else ok x
  | JBool b => ok (if b then 1%float else 0%float)
  | JStr s =>
      match float_of_str s with
      | Some x => ok x
      | None => raise_fault (BadFloatLiteral s)
      end
  | _ => raise_fault (BadFloatArgument v)
  end.

(** [date.fromisoformat(v)] *)
Definition py_date_fromisoformat (v : json) : result date :=
  match v with
  | JStr s =>
      match date_fromisoformat s with
      | Some d => ok d
      | None => raise_fault (BadIsoFormat s)
      end
  | _ => raise_fault (IsoArgumentNotStr v)
  end.

(** [datetime.fromisoformat(v)] *)
Definition py_datetime_fromisoformat (v : json) : result datetime :=
  match v with
  | JStr s =>
      match datetime_fromisoformat s with
      | Some d => ok d
      | None => raise_fault (BadIsoFormat s)
      end
  | _ => raise_fault (IsoArgumentNotStr v)
  end.

End Builtins.

(** ** Data models

    The pydantic models.  Fields without constraints accept any value of
    their type, so only [WeatherLocation] can fail to construct. *)

Module WeatherLocation.
Record t : Type := mk { latitude : float; longitude : float }.

(** [Field(..., ge=lo, le=hi)] on a float: the value is kept when both
    comparisons hold, so a NaN, which satisfies neither, is refused. *)
Definition within (lo hi x : float) : bool :=
  PrimFloat.leb lo x && PrimFloat.leb x hi.

Section New.
Context `{PyRuntime}.

(** [WeatherLocation(latitude=..., longitude=...)]: pydantic reports
    every offending field in one [ValidationError]. *)
Definition new (latitude longitude : float) : result t :=
  let bad :=
    ((if within (-90) 90 latitude then [] else ["latitude"]) ++
     (if within (-180) 180 longitude then [] else ["longitude"]))%list in
  match bad with
  | [] => ok (mk latitude longitude)
  | _ => raise_fault (InvalidModel "WeatherLocation" bad)
  end.
End New.
End WeatherLocation.

Module CurrentWeather.
Record t : Type := mk {
  temperature : float;
  wind_speed : float;
  weather_code : Z;
  conditions : string;
  timestamp : datetime
}.
End CurrentWeather.

Module DailyForecast.
Record t : Type := mk {
  forecast_date : date;
  temperature_min : float;
  temperature_max : float;
  precipitation : float;
  weather_code : Z;
  conditions : string
}.
End DailyForecast.

Module ForecastResponse.
Record t : Type := mk {
  location : WeatherLocation.t;
  forecasts : list DailyForecast.t
}.
End ForecastResponse.

(** ** WMO weather code mapping *)

Definition WMO_TABLE : list (Z * string) :=
  [ (0, "Clear sky");
    (1, "Mainly clear");
    (2, "Partly cloudy");
    (3, "Overcast");
    (45, "Foggy");
    (48, "Depositing rime fog");
    (51, "Light drizzle");
    (53, "Moderate drizzle");
    (55, "Dense drizzle");
    (56, "Light freezing drizzle");
    (57, "Dense freezing drizzle");
    (61, "Slight rain");
    (63, "Moderate rain");
    (65, "Heavy rain");
    (66, "Light freezing rain");
    (67, "Heavy freezing rain");
    (71, "Slight snowfall");
    (73, "Moderate snowfall");
    (75, "Heavy snowfall");
    (77, "Snow grains");
    (80, "Slight rain showers");
    (81, "Moderate rain showers");
    (82, "Violent rain showers");
    (85, "Slight snow showers");
    (86, "Heavy snow showers");
    (95, "Thunderstorm");
    (96, "Thunderstorm with slight hail");
    (99, "Thunderstorm with heavy hail") ].

Definition WMO_CODES : gmap Z string := list_to_map WMO_TABLE.

(** [WMO_CODES.get(code, f"Unknown (code {code})")]: the default is an
    argument of [get], so the f-string is evaluated on every call, before
    the table is consulted. *)
Definition weather_code_to_conditions `{PyRuntime} (code : Z) : result string :=
  text ← py_str_int code;
  let fallback := "Unknown (code " ++ text ++ ")" in
  ok match WMO_CODES !! code with
     | Some s => s
     | None => fallback
     end.

(** ** HTTP exchange

    A computation runs against an upstream, which answers each request
    given the requests issued before it, and records every request it
    issues. *)

Inductive param : Type :=
| PFloat (x : float)
| PInt (n : Z)
| PStr (s : string).

Record request : Type := mk_request {
  req_method : string;
  req_url : string;
  req_params : list (string * param);
  req_timeout : float          (* seconds *)
}.

Record response : Type := mk_response {
  resp_status : Z;
  resp_json : option json      (* the body parsed as JSON, if it parses *)
}.

Definition upstream : Type := list request -> request -> result response.

Definition io (A : Type) : Type :=
  upstream -> list request -> result A * list request.

#[global] Instance io_ret : MRet io := fun A x _ h => (inr x, h).
#[global] Instance io_bind : MBind io :=
  fun A B f m up h =>
    match m up h with
    | (inl e, h') => (inl e, h')
    | (inr x, h') => f x up h'
    end.

Definition lift {A : Type} (r : result A) : io A := fun _ h => (r, h).

Definition raise {A : Type} (e : exn) : io A := lift (throw e).

(** Sending a request: it is logged, and the upstream decides the outcome. *)
Definition send (req : request) : io response :=
  fun up h => (up h req, (h ++ [req])%list).

(** [try: body  except C1 as exc: h1  except C2 as exc: h2 ...]: the first
    clause whose class test accepts the exception handles it; with no such
    clause the exception propagates. *)
Fixpoint dispatch {A : Type} (clauses : list ((exn -> bool) * (exn -> io A)))
    (e : exn) : io A :=
  match clauses with
  | [] => raise e
  | (accepts, handler) :: rest =>
      if accepts e then handler e else dispatch rest e
  end.

Definition try_except {A : Type} (body : io A)
    (clauses : list ((exn -> bool) * (exn -> io A))) : io A :=
  fun up h =>
    match body up h with
    | (inr x, h') => (inr x, h')
    | (inl e, h') => dispatch clauses e up h'
    end.

Definition isinstance_ValueError (e : exn) : bool :=
  match e with
  | Raised c _ => is_ValueError c
  | HTTPStatusError _ _ => false
  end.

Definition isinstance_HTTPStatusError (e : exn) : bool :=
  match e with
  | HTTPStatusError _ _ => true
  | Raised _ _ => false
  end.

Definition isinstance_Exception (e : exn) : bool := true.

(** [for x in xs: state = body(state, x)], stopping at the first exception. *)
Fixpoint for_each {A S : Type} (xs : list A) (body : S -> A -> result S)
    (s : S) : result S :=
  match xs with
  | [] => ok s
  | x :: rest => s' ← body s x; for_each rest body s'
  end.

(** [range(n)] *)
Definition range (n : nat) : list nat := seq 0 n.

(** ** Open-Meteo client *)

Definition OPEN_METEO_BASE : string := "https://api.open-meteo.com/v1/forecast".
Definition MAX_RETRIES : Z := 3.
Definition RETRY_BACKOFF : float := 0.5%float.  (* seconds *)

(** The part of [httpx.AsyncClient] the module relies on. *)
Module httpx.
Record AsyncClient : Type := mk_AsyncClient { timeout : float }.

(** [Response.is_success] *)
Definition is_success (r : response) : bool :=
  (200 <=? resp_status r) && (resp_status r <=? 299).

Section Calls.
Context `{PyRuntime}.

(** [await client.get(url, params=params)] *)
Definition get (client : AsyncClient) (url : string)
    (params : list (string * param)) : io response :=
  send {| req_method := "GET"; req_url := url; req_params := params;
          req_timeout := timeout client |}.

(** [response.raise_for_status()] *)
Definition raise_for_status (r : response) : result unit :=
  if is_success r then ok tt
  else throw (HTTPStatusError (resp_status r)
                              (http_status_msg (resp_status r))).

(** [response.json()] *)
Definition json_of (r : response) : result json :=
  match resp_json r with
  | Some v => ok v
  | None => raise_fault BodyNotJSON
  end.
End Calls.
End httpx.

Module OpenMeteoClient.
Record t : Type := mk { _client : httpx.AsyncClient }.

(** [__init__] *)
Definition init : t := {| _client := {| httpx.timeout := 10%float |} |}.

Section Methods.
Context `{PyRuntime}.

(** [not (-90 <= latitude <= 90)] chains two comparisons of the float with
    an int; both bounds are exact as floats, so these are the float
    comparisons, and every comparison with a NaN is false. *)
Definition _validate_coordinates (latitude longitude : float) : result unit :=
  if negb (PrimFloat.leb (-90) latitude && PrimFloat.leb latitude 90) then
    throw (Raised ValueError
             ("Latitude must be between -90 and 90, got " ++ float_repr latitude))
  else if negb (PrimFloat.leb (-180) longitude && PrimFloat.leb longitude 180) then
    throw (Raised ValueError
             ("Longitude must be between -180 and 180, got " ++ float_repr longitude))
  else ok tt.

Definition _get (self : t) (params : list (string * param)) : io json :=
  response ← httpx.get (_client self) OPEN_METEO_BASE params;
  _ ← lift (httpx.raise_for_status response);
  data ← lift (httpx.json_of response);
  failed ← lift (present ← py_in "error" data;
                 if present : bool then
                   flag ← py_getitem data "error"; ok (py_bool flag)
                 else ok false);
  if failed : bool then
    reason ← lift (py_get data "reason" (JStr "unknown"));
    raise (Raised RuntimeError ("Open-Meteo API error: " ++ py_str reason))
  else mret data.

Definition current_params (latitude longitude : float) : list (string * param) :=
  [ ("latitude", PFloat latitude);
    ("longitude", PFloat longitude);
    ("current", PStr "temperature_2m,wind_speed_10m,weather_code");
    ("timezone", PStr "UTC") ].

(** The body of [get_current_weather] after the request. *)
Definition parse_current (data : json) : result CurrentWeather.t :=
  current ← py_getitem data "current";
  code ← py_getitem current "weather_code" ≫= py_int;
  temperature ← py_getitem current "temperature_2m" ≫= py_float;
  wind_speed ← py_getitem current "wind_speed_10m" ≫= py_float;
  conditions ← weather_code_to_conditions code;
  parsed ← py_getitem current "time" ≫= py_datetime_fromisoformat;
  ok {| CurrentWeather.temperature := temperature;
        CurrentWeather.wind_speed := wind_speed;
        CurrentWeather.weather_code := code;
        CurrentWeather.conditions := conditions;
        CurrentWeather.timestamp := replace_tzinfo parsed UTC |}.

Definition get_current_weather (self : t) (latitude longitude : float)
    : io CurrentWeather.t :=
  _ ← lift (_validate_coordinates latitude longitude);
  data ← _get self (current_params latitude longitude);
  lift (parse_current data).

Definition forecast_params (latitude longitude : float) (days : Z)
    : list (string * param) :=
  [ ("latitude", PFloat latitude);
    ("longitude", PFloat longitude);
    ("daily", PStr "temperature_2m_max,temperature_2m_min,precipitation_sum,weather_code");
    ("timezone", PStr "UTC");
    ("forecast_days", PInt days) ].

(** One turn of the loop over [range(len(daily["time"]))]: the forecast
    built from index [i] of each array is appended. *)
Definition forecast_step (daily : json) (forecasts : list DailyForecast.t)
    (i : nat) : result (list DailyForecast.t) :=
  code ← (py_getitem daily "weather_code" ≫= fun a => py_index a i) ≫= py_int;
  forecast_date ←
    (py_getitem daily "time" ≫= fun a => py_index a i) ≫= py_date_fromisoformat;
  temperature_min ←
    (py_getitem daily "temperature_2m_min" ≫= fun a => py_index a i) ≫= py_float;
  temperature_max ←
    (py_getitem daily "temperature_2m_max" ≫= fun a => py_index a i) ≫= py_float;
  precipitation ←
    (py_getitem daily "precipitation_sum" ≫= fun a => py_index a i) ≫= py_float;
  conditions ← weather_code_to_conditions code;
  ok (forecasts ++
      [ {| DailyForecast.forecast_date := forecast_date;
           DailyForecast.temperature_min := temperature_min;
           DailyForecast.temperature_max := temperature_max;
           DailyForecast.precipitation := precipitation;
           DailyForecast.weather_code := code;
           DailyForecast.conditions := conditions |} ])%list.

(** The body of [get_forecast] after the request. *)
Definition parse_forecast (latitude longitude : float) (data : json)
    : result ForecastResponse.t :=
  daily ← py_getitem data "daily";
  n ← py_getitem daily "time" ≫= py_len;
  forecasts ← for_each (range n) (forecast_step daily) [];
  location ← WeatherLocation.new latitude longitude;
  ok {| ForecastResponse.location := location;
        ForecastResponse.forecasts := forecasts |}.

Definition get_forecast (self : t) (latitude longitude : float) (days : Z)
    : io ForecastResponse.t :=
  _ ← lift (_validate_coordinates latitude longitude);
  if negb ((1 <=? days) && (days <=? 16)) then
    text ← lift (py_str_int days);
    raise (Raised ValueError ("Days must be between 1 and 16, got " ++ text))
  else
    data ← _get self (forecast_params latitude longitude days);
    lift (parse_forecast latitude longitude data).
End Methods.
End OpenMeteoClient.

(** ** MCP tool handlers *)

(** The module-level client shared by both handlers. *)
Definition _client : OpenMeteoClient.t := OpenMeteoClient.init.

Section Tools.
Context `{PyRuntime}.

(** The f-strings of the handlers render three kinds of int.  A weather
    code is the code of a record that the client returned, so that
    [weather_code_to_conditions] has rendered the same int already; [days]
    is rendered after the client accepted it, so that it lies between 1
    and 16; a status code is the three-digit code of the status line.
    None of these renderings can raise (see [looked_up_code_renders] and
    [accepted_days_render] for the first two), and they are written with
    [str_int]. *)
Definition format_current (latitude longitude : float) (weather : CurrentWeather.t)
    : string :=
  "Current weather at (" ++ float_repr latitude ++ ", " ++ float_repr longitude
    ++ "):" ++ nl
  ++ "  Temperature: " ++ float_repr (CurrentWeather.temperature weather)
    ++ "°C" ++ nl
  ++ "  Wind Speed: " ++ float_repr (CurrentWeather.wind_speed weather)
    ++ " km/h" ++ nl
  ++ "  Conditions: " ++ CurrentWeather.conditions weather
    ++ " (WMO code " ++ str_int (CurrentWeather.weather_code weather) ++ ")" ++ nl
  ++ "  Observed at: " ++ datetime_isoformat (CurrentWeather.timestamp weather).

(** In the second clause [exc.response.status_code] is read off the
    [HTTPStatusError] that the clause accepted; no other exception reaches
    it. *)
Definition get_current_weather (latitude longitude : float) : io string :=
  try_except
    (weather ← OpenMeteoClient.get_current_weather _client latitude longitude;
     mret (format_current latitude longitude weather))
    [ (isinstance_ValueError,
       fun exc => mret ("Error: " ++ str_exn exc));
      (isinstance_HTTPStatusError,
       fun exc =>
         mret ("Error: Failed to fetch weather data – " ++
               match exc with
               | HTTPStatusError status_code _ => str_int status_code
               | Raised _ _ => ""
               end));
      (isinstance_Exception,
       fun exc => mret ("Error: An unexpected error occurred – " ++ str_exn exc)) ].

Definition forecast_header (latitude longitude : float) (days : Z) : string :=
  "Weather forecast for (" ++ float_repr latitude ++ ", " ++ float_repr longitude
    ++ ") – " ++ str_int days ++ " day(s):" ++ nl.

Definition forecast_line (day : DailyForecast.t) : string :=
  "  " ++ date_str (DailyForecast.forecast_date day) ++ ": "
    ++ DailyForecast.conditions day ++ " "
  ++ "(WMO " ++ str_int (DailyForecast.weather_code day) ++ "), "
  ++ float_repr (DailyForecast.temperature_min day) ++ "°C – "
    ++ float_repr (DailyForecast.temperature_max day) ++ "°C, "
  ++ "Precipitation: " ++ float_repr (DailyForecast.precipitation day) ++ " mm".

Definition format_forecast (latitude longitude : float) (days : Z)
    (forecast : ForecastResponse.t) : string :=
  let lines :=
    fold_left (fun lines day => (lines ++ [forecast_line day])%list)
              (ForecastResponse.forecasts forecast)
              [forecast_header latitude longitude days] in
  join nl lines.

Definition get_forecast (latitude longitude : float) (days : Z) : io string :=
  try_except
    (forecast ← OpenMeteoClient.get_forecast _client latitude longitude days;
     mret (format_forecast latitude longitude days forecast))
    [ (isinstance_ValueError,
       fun exc => mret ("Error: " ++ str_exn exc));
      (isinstance_HTTPStatusError,
       fun exc =>
         mret ("Error: Failed to fetch forecast – " ++
               match exc with
               | HTTPStatusError status_code _ => str_int status_code
               | Raised _ _ => ""
               end));
      (isinstance_Exception,
       fun exc => mret ("Error: An unexpected error occurred – " ++ str_exn exc)) ].

(** The default of the [days] parameter. *)
Definition default_days : Z := 7.
End Tools.

(** ** Entry point

    [argparse] and [FastMCP] belong to the hosting framework.  A command
    line that [parse_args] accepted is given by the value it supplied for
    each option, if any; a rejected command line ends the process inside
    [argparse] and is no part of the model.  [main] is followed up to its
    call of [mcp.run]. *)

Module argparse.
Record Namespace : Type := mk_Namespace {
  transport : string;
  host : string;
  port : Z
}.

(** The options as found on the command line, [--port] already converted
    by [type=int]. *)
Record supplied : Type := mk_supplied {
  opt_transport : option string;
  opt_host : option string;
  opt_port : option Z
}.

(** An option takes the supplied value, and its default otherwise. *)
Definition parse_args (argv : supplied)
    (default_transport default_host : string) (default_port : Z) : Namespace :=
  {| transport := match opt_transport argv with
                  | Some v => v
                  | None => default_transport
                  end;
     host := match opt_host argv with Some v => v | None => default_host end;
     port := match opt_port argv with Some v => v | None => default_port end |}.
End argparse.

(** [os.environ.get(key, default)] *)
Definition environ_get (environ : gmap string string) (key default : string)
    : string :=
  match environ !! key with
  | Some v => v
  | None => default
  end.

(** The fields of [mcp.settings] that [main] assigns. *)
Record Settings (Security : Type) : Type := mk_Settings {
  settings_host : string;
  settings_port : Z;
  transport_security : option Security
}.
Arguments mk_Settings {Security}.
Arguments settings_host {Security}.
Arguments settings_port {Security}.
Arguments transport_security {Security}.

(** What [main] hands over to [mcp.run], and the environment it leaves. *)
Record Launch (Security : Type) : Type := mk_Launch {
  launch_transport : string;
  launch_settings : Settings Security;
  launch_environ : gmap string string
}.
Arguments mk_Launch {Security}.
Arguments launch_transport {Security}.
Arguments launch_settings {Security}.
Arguments launch_environ {Security}.

(** [host in ("127.0.0.1", "localhost", "::1")] *)
Definition is_loopback (h : string) : bool :=
  String.eqb h "127.0.0.1" || String.eqb h "localhost" || String.eqb h "::1".

Section EntryPoint.
Context `{PyRuntime}.

(** [int(s)] for a [str] *)
Definition int_of_environ (s : string) : result Z := py_int (JStr s).

(** The defaults are computed while the parser is built, before the
    command line is read. *)
Definition _parse_args (argv : argparse.supplied) (environ : gmap string string)
    : result (string * gmap string string) :=
  let default_transport := environ_get environ "MCP_TRANSPORT" "stdio" in
  let default_host := environ_get environ "MCP_HOST" "0.0.0.0" in
  default_port ← int_of_environ (environ_get environ "MCP_PORT" "8000");
  let args := argparse.parse_args argv default_transport default_host default_port in
  let environ := <["FASTMCP_HOST" := argparse.host args]> environ in
  let environ := <["FASTMCP_PORT" := str_int (argparse.port args)]> environ in
  ok (argparse.transport args, environ).

Definition main {Security : Type} (argv : argparse.supplied)
    (environ : gmap string string) (settings : Settings Security)
    : result (Launch Security) :=
  parsed ← _parse_args argv environ;
  let transport := fst parsed in
  let environ := snd parsed in
  let new_host := environ_get environ "FASTMCP_HOST" "0.0.0.0" in
  new_port ← int_of_environ (environ_get environ "FASTMCP_PORT" "8000");
  let security :=
    if negb (is_loopback new_host) then None else transport_security settings in
  ok {| launch_transport := transport;
        launch_settings := {| settings_host := new_host;
                              settings_port := new_port;
                              transport_security := security |};
        launch_environ := environ |}.
End EntryPoint.

(** ** A sample runtime and sample upstreams

    Used to run the definitions on concrete inputs; the theorems themselves
    hold for every runtime and every upstream. *)

Definition digit_value (c : ascii) : option Z :=
  let n := Z.of_nat (nat_of_ascii c) in
  if (48 <=? n) && (n <=? 57) then Some (n - 48) else None.

Fixpoint digits_value (s : string) (acc : Z) : option Z :=
  match s with
  | EmptyString => Some acc
  | String c rest =>
      match digit_value c with
      | Some d => digits_value rest (10 * acc + d)
      | None => None
      end
  end.

(** [YYYY-MM-DD] *)
Definition sample_parse_date (s : string) : option date :=
  if (String.length s =? 10)%nat
     && String.eqb (substring 4 1 s) "-" && String.eqb (substring 7 1 s) "-"
  then
    match digits_value (substring 0 4 s) 0,
          digits_value (substring 5 2 s) 0,
          digits_value (substring 8 2 s) 0 with
    | Some y, Some m, Some d => Some (mk_date y m d)
    | _, _, _ => None
    end
  else None.

Definition zfill (width : nat) (s : string) : string :=
  String.concat "" (repeat "0" (width - String.length s)) ++ s.

Definition sample_date_str (d : date) : string :=
  zfill 4 (str_int (year d)) ++ "-" ++ zfill 2 (str_int (month d))
    ++ "-" ++ zfill 2 (str_int (day d)).

Definition sample_runtime : PyRuntime := {|
  float_repr := fun _ => "<float>";
  container_repr := fun _ => "<container>";
  float_of_str := fun _ => None;
  int_of_str := fun s => digits_value s 0;
  date_fromisoformat := sample_parse_date;
  date_str := sample_date_str;
  datetime_fromisoformat := fun s =>
    match sample_parse_date (substring 0 10 s) with
    | Some d => Some (mk_datetime d 0 0 0 0 None)
    | None => None
    end;
  datetime_isoformat := fun dt => sample_date_str (dt_date dt);
  fault_msg := fun _ => "<fault>";
  http_status_msg := fun _ => "<status>"
|}.

(** The three-day body used by the test suite. *)
Definition FORECAST_TIMES : list json :=
  [JStr "2025-06-15"; JStr "2025-06-16"; JStr "2025-06-17"].
Definition FORECAST_MAXS : list json := [JFloat 25; JFloat 27; JFloat 23].
Definition FORECAST_MINS : list json := [JFloat 15; JFloat 17; JFloat 14].
Definition FORECAST_PRECS : list json := [JFloat 0; JFloat 2.5; JFloat 0.1].
Definition FORECAST_CODES : list json := [JInt 0; JInt 63; JInt 1].

Definition FORECAST_DAILY : gmap string json :=
  list_to_map
    [ ("time", JArr FORECAST_TIMES);
      ("temperature_2m_max", JArr FORECAST_MAXS);
      ("temperature_2m_min", JArr FORECAST_MINS);
      ("precipitation_sum", JArr FORECAST_PRECS);
      ("weather_code", JArr FORECAST_CODES) ].

Definition FORECAST_RESPONSE : json := JObj {[ "daily" := JObj FORECAST_DAILY ]}.

(** An error envelope, as Open-Meteo sends it with status 429. *)
Definition ERROR_REASON : string := "Minutely API request limit exceeded.".

Definition ERROR_BODY : gmap string json :=
  list_to_map [ ("error", JBool true); ("reason", JStr ERROR_REASON) ].

Definition ERROR_ENVELOPE : json := JObj ERROR_BODY.

(** An upstream that answers every request with the given status and body. *)
Definition always (status : Z) (body : option json) : upstream :=
  fun _ _ => ok (mk_response status body).

(** ** Outcomes as functions of the upstream's answer

    After the request is sent nothing else touches the network, so what a
    client method returns is a pure function of the answer. *)

Section Outcomes.
Context `{PyRuntime}.

(** What [_get] does with the answer to its request. *)
Definition read_answer (answer : result response) : result json :=
  response ← answer;
  _ ← httpx.raise_for_status response;
  data ← httpx.json_of response;
  failed ← (present ← py_in "error" data;
            if present : bool then
              flag ← py_getitem data "error"; ok (py_bool flag)
            else ok false);
  if failed : bool then
    reason ← py_get data "reason" (JStr "unknown");
    throw (Raised RuntimeError ("Open-Meteo API error: " ++ py_str reason))
  else ok data.

Definition current_request (self : OpenMeteoClient.t) (latitude longitude : float)
    : request :=
  {| req_method := "GET"; req_url := OPEN_METEO_BASE;
     req_params := OpenMeteoClient.current_params latitude longitude;
     req_timeout := httpx.timeout (OpenMeteoClient._client self) |}.

Definition forecast_request (self : OpenMeteoClient.t) (latitude longitude : float)
    (days : Z) : request :=
  {| req_method := "GET"; req_url := OPEN_METEO_BASE;
     req_params := OpenMeteoClient.forecast_params latitude longitude days;
     req_timeout := httpx.timeout (OpenMeteoClient._client self) |}.

(** The [DailyForecast] built from index [i] of the arrays of [daily]. *)
Definition forecast_at (daily : json) (i : nat) : result DailyForecast.t :=
  code ← (py_getitem daily "weather_code" ≫= fun a => py_index a i) ≫= py_int;
  forecast_date ←
    (py_getitem daily "time" ≫= fun a => py_index a i) ≫= py_date_fromisoformat;
  temperature_min ←
    (py_getitem daily "temperature_2m_min" ≫= fun a => py_index a i) ≫= py_float;
  temperature_max ←
    (py_getitem daily "temperature_2m_max" ≫= fun a => py_index a i) ≫= py_float;
  precipitation ←
    (py_getitem daily "precipitation_sum" ≫= fun a => py_index a i) ≫= py_float;
  conditions ← weather_code_to_conditions code;
  ok {| DailyForecast.forecast_date := forecast_date;
        DailyForecast.temperature_min := temperature_min;
        DailyForecast.temperature_max := temperature_max;
        DailyForecast.precipitation := precipitation;
        DailyForecast.weather_code := code;
        DailyForecast.conditions := conditions |}.

(** [d] is the forecast made of the elements at index [i] of the five
    arrays: each array has an element there, each element converts, the
    fields of [d] are the converted values, and its conditions are those
    of its code. *)
Definition built_from (times maxs mins precs codes : list json) (i : nat)
    (d : DailyForecast.t) : Prop :=
  exists t mx mn p c,
    times !! i = Some t /\ maxs !! i = Some mx /\ mins !! i = Some mn
    /\ precs !! i = Some p /\ codes !! i = Some c
    /\ py_date_fromisoformat t = ok (DailyForecast.forecast_date d)
    /\ py_float mn = ok (DailyForecast.temperature_min d)
    /\ py_float mx = ok (DailyForecast.temperature_max d)
    /\ py_float p = ok (DailyForecast.precipitation d)
    /\ py_int c = ok (DailyForecast.weather_code d)
    /\ weather_code_to_conditions (DailyForecast.weather_code d)
       = ok (DailyForecast.conditions d).

(** The five arrays of a [daily] object. *)
Definition daily_arrays (daily : gmap string json)
    (times maxs mins precs codes : list json) : Prop :=
  daily !! "time" = Some (JArr times)
  /\ daily !! "temperature_2m_max" = Some (JArr maxs)
  /\ daily !! "temperature_2m_min" = Some (JArr mins)
  /\ daily !! "precipitation_sum" = Some (JArr precs)
  /\ daily !! "weather_code" = Some (JArr codes).
End Outcomes.

(** [data.get('reason', 'unknown')] on the body of an error envelope. *)
Definition envelope_reason (body : gmap string json) : json :=
  match body !! "reason" with
  | Some reason => reason
  | None => JStr "unknown"
  end.

(** Both coordinates lie within their bounds. *)
Definition coordinates_ok (latitude longitude : float) : bool :=
  WeatherLocation.within (-90) 90 latitude
  && WeatherLocation.within (-180) 180 longitude.

Definition days_ok (days : Z) : bool := (1 <=? days) && (days <=? 16).

(** The record made of the four fields of a [current] object: each field
    is present and converts, the conditions are derived from the code, and
    the timestamp is the parsed one with its time zone set to UTC. *)
Definition current_from `{PyRuntime} (current : gmap string json)
    (w : CurrentWeather.t) : Prop :=
  exists c t ws tm parsed,
    current !! "weather_code" = Some c
    /\ current !! "temperature_2m" = Some t
    /\ current !! "wind_speed_10m" = Some ws
    /\ current !! "time" = Some tm
    /\ py_int c = ok (CurrentWeather.weather_code w)
    /\ py_float t = ok (CurrentWeather.temperature w)
    /\ py_float ws = ok (CurrentWeather.wind_speed w)
    /\ py_datetime_fromisoformat tm = ok parsed
    /\ CurrentWeather.timestamp w = replace_tzinfo parsed UTC
    /\ weather_code_to_conditions (CurrentWeather.weather_code w)
       = ok (CurrentWeather.conditions w).

(** The current-weather body used by the test suite. *)
Definition CURRENT_FIELDS : gmap string json :=
  list_to_map
    [ ("time", JStr "2025-06-15T12:00");
      ("temperature_2m", JFloat 22.5);
      ("wind_speed_10m", JFloat 15.3);
      ("weather_code", JInt 2) ].

Definition CURRENT_WEATHER_RESPONSE : json :=
  JObj {[ "current" := JObj CURRENT_FIELDS ]}.

(** An upstream whose transport fails with the given exception. *)
Definition failing (e : exn) : upstream := fun _ _ => throw e.

(** The request that [_get] sends for the given parameters. *)
Definition request_of (self : OpenMeteoClient.t) (params : list (string * param))
    : request :=
  {| req_method := "GET"; req_url := OPEN_METEO_BASE; req_params := params;
     req_timeout := httpx.timeout (OpenMeteoClient._client self) |}.

(** A three-day body whose arrays other than ["time"] hold a fourth
    element, and one whose ["weather_code"] array holds only two. *)
Definition FORECAST_DAILY_SURPLUS : gmap string json :=
  list_to_map
    [ ("time", JArr FORECAST_TIMES);
      ("temperature_2m_max", JArr (FORECAST_MAXS ++ [JFloat 30]));
      ("temperature_2m_min", JArr (FORECAST_MINS ++ [JFloat 20]));
      ("precipitation_sum", JArr (FORECAST_PRECS ++ [JNull]));
      ("weather_code", JArr (FORECAST_CODES ++ [JInt 3])) ].

Definition FORECAST_DAILY_SHORT : gmap string json :=
  list_to_map
    [ ("time", JArr FORECAST_TIMES);
      ("temperature_2m_max", JArr FORECAST_MAXS);
      ("temperature_2m_min", JArr FORECAST_MINS);
      ("precipitation_sum", JArr FORECAST_PRECS);
      ("weather_code", JArr [JInt 0; JInt 63]) ].

(** The code of a table name, searched for in table order. *)
Definition code_of_name (name : string) : option Z :=
  match find (fun entry : Z * string => String.eqb (snd entry) name) WMO_TABLE with
  | Some entry => Some (fst entry)
  | None => None
  end.

(** [isinstance(v, dict)] *)
Definition is_object (v : json) : bool :=
  match v with
  | JObj _ => true
  | _ => false
  end.

(** * Properties *)

(** ** Strings *)

Lemma append_cons (c : ascii) (s t : string) : String c s ++ t = String c (s ++ t).
Proof. reflexivity. Qed.

Lemma prefix_nil (s : string) : String.prefix "" s = true.
Proof. destruct s; reflexivity. Qed.

Lemma prefix_cons (c : ascii) (p s : string) :
  String.prefix (String c p) (String c s) = String.prefix p s.
Proof. cbn. destruct (ascii_dec c c); [reflexivity | contradiction]. Qed.

Lemma prefix_append (p s : string) : String.prefix p (p ++ s) = true.
Proof.
  induction p as [| c p IH].
  - apply prefix_nil.
  - rewrite append_cons, prefix_cons. exact IH.
Qed.

Lemma prefix_trans (a b c : string) :
  String.prefix a b = true -> String.prefix b c = true -> String.prefix a c = true.
Proof.
  revert b c. induction a as [| x a IH]; intros b c Hab Hbc.
  - apply prefix_nil.
  - destruct b as [| y b]; [discriminate |].
    destruct c as [| z c]; [discriminate |].
    cbn in Hab, Hbc |- *.
    destruct (ascii_dec x y) as [-> |]; [| discriminate].
    destruct (ascii_dec y z) as [-> |]; [| discriminate].
    eauto.
Qed.

Lemma substringb_unfold (needle hay : string) :
  substringb needle hay =
  String.prefix needle hay ||
  match hay with
  | EmptyString => false
  | String _ rest => substringb needle rest
  end.
Proof. destruct hay; reflexivity. Qed.

Lemma contains_of_prefix (needle hay : string) :
  String.prefix needle hay = true -> contains needle hay.
Proof. intros Hp. unfold contains. rewrite substringb_unfold, Hp. reflexivity. Qed.

Lemma contains_head (needle rest : string) : contains needle (needle ++ rest).
Proof. apply contains_of_prefix, prefix_append. Qed.

Lemma contains_refl (needle : string) : contains needle needle.
Proof.
  apply contains_of_prefix. induction needle as [| c s IH].
  - reflexivity.
  - rewrite prefix_cons. exact IH.
Qed.

Lemma contains_skip (needle pre hay : string) :
  contains needle hay -> contains needle (pre ++ hay).
Proof.
  unfold contains. intros Hc. induction pre as [| c pre IH].
  - exact Hc.
  - rewrite append_cons, substringb_unfold, IH. apply orb_true_r.
Qed.

Lemma contains_of_starts_with (needle pre s : string) :
  String.prefix needle pre = true -> starts_with pre s -> contains needle s.
Proof.
  intros Hn Hs. apply contains_of_prefix. exact (prefix_trans _ _ _ Hn Hs).
Qed.

Ltac find_substring :=
  repeat first
    [ apply contains_head
    | apply contains_refl
    | apply contains_skip ].

(** ** Float comparisons *)

Lemma SF_beyond_bound (m : positive) (e : Z) (x : spec_float) :
  SFltb (S754_finite false m e) (SFabs x) = true ->
  SFleb (S754_finite true m e) x && SFleb x (S754_finite false m e) = false.
Proof.
  unfold SFltb, SFleb.
  destruct x as [s | s | | s mx ex]; simpl; try discriminate.
  - destruct s; reflexivity.
  - change (Pos.compare_cont Eq) with Pos.compare.
    rewrite (Z.compare_antisym e ex), (Pos.compare_antisym m mx).
    destruct s, (e ?= ex), (m ?= mx)%positive; simpl; congruence.
Qed.

(** A float whose magnitude exceeds a positive finite bound [b] is not in
    [[-b, b]]. *)
Lemma beyond_not_within (b x : float) (m : positive) (e : Z) :
  Prim2SF b = S754_finite false m e ->
  PrimFloat.ltb b (PrimFloat.abs x) = true ->
  WeatherLocation.within (- b) b x = false.
Proof.
  intros Hb Hlt. unfold WeatherLocation.within.
  rewrite ltb_spec, abs_spec, Hb in Hlt.
  rewrite !leb_spec, opp_spec, Hb. simpl SFopp.
  now apply SF_beyond_bound.
Qed.

Lemma beyond_90 (x : float) :
  PrimFloat.ltb 90 (PrimFloat.abs x) = true ->
  WeatherLocation.within (-90) 90 x = false.
Proof. apply (beyond_not_within 90 x 6333186975989760 (-46)). reflexivity. Qed.

Lemma beyond_180 (x : float) :
  PrimFloat.ltb 180 (PrimFloat.abs x) = true ->
  WeatherLocation.within (-180) 180 x = false.
Proof. apply (beyond_not_within 180 x 6333186975989760 (-45)). reflexivity. Qed.

Lemma coordinates_ok_beyond (latitude longitude : float) :
  PrimFloat.ltb 90 (PrimFloat.abs latitude) = true
  \/ PrimFloat.ltb 180 (PrimFloat.abs longitude) = true ->
  coordinates_ok latitude longitude = false.
Proof.
  unfold coordinates_ok. intros [Hlat | Hlon].
  - rewrite (beyond_90 _ Hlat). reflexivity.
  - rewrite (beyond_180 _ Hlon). apply andb_false_r.
Qed.

(** ** How the client methods run *)

Ltac split_matches :=
  repeat match goal with
         | |- context [match ?x with _ => _ end] => destruct x eqn:?
         end.

Section ClientRuns.
Context `{PyRuntime}.
Import OpenMeteoClient.

Lemma validate_passes (latitude longitude : float) :
  coordinates_ok latitude longitude = true ->
  _validate_coordinates latitude longitude = ok tt.
Proof.
  unfold coordinates_ok, WeatherLocation.within, _validate_coordinates.
  intros [-> ->]%andb_true_iff. reflexivity.
Qed.

Lemma validate_rejects (latitude longitude : float) :
  coordinates_ok latitude longitude = false ->
  exists msg, _validate_coordinates latitude longitude = throw (Raised ValueError msg).
Proof.
  unfold coordinates_ok, WeatherLocation.within, _validate_coordinates.
  intros [-> | ->]%andb_false_iff; cbn [negb]; [eauto |].
  destruct (_ && _); cbn [negb]; eauto.
Qed.

Lemma validate_ok_iff (latitude longitude : float) :
  _validate_coordinates latitude longitude = ok tt <->
  coordinates_ok latitude longitude = true.
Proof.
  split; [| apply validate_passes].
  destruct (coordinates_ok latitude longitude) eqn:Hc; [reflexivity |].
  destruct (validate_rejects _ _ Hc) as [msg ->]. discriminate.
Qed.

Lemma _get_run (self : t) (params : list (string * param))
    (up : upstream) (h : list request) :
  _get self params up h =
    (read_answer
       (up h {| req_method := "GET"; req_url := OPEN_METEO_BASE;
                req_params := params;
                req_timeout := httpx.timeout (_client self) |}),
     (h ++ [ {| req_method := "GET"; req_url := OPEN_METEO_BASE;
                req_params := params;
                req_timeout := httpx.timeout (_client self) |} ])%list).
Proof.
  unfold _get, read_answer, httpx.get, send, lift, raise, throw, ok,
    mbind, mret, io_bind, io_ret, result_bind.
  split_matches; reflexivity.
Qed.

Lemma get_current_weather_rejected (self : t) (latitude longitude : float)
    (up : upstream) (h : list request) :
  coordinates_ok latitude longitude = false ->
  exists msg,
    get_current_weather self latitude longitude up h
    = (throw (Raised ValueError msg), h).
Proof.
  intros Hc. destruct (validate_rejects _ _ Hc) as [msg Hv].
  exists msg. unfold get_current_weather, mbind, io_bind, lift.
  rewrite Hv. reflexivity.
Qed.

Lemma get_current_weather_run (self : t) (latitude longitude : float)
    (up : upstream) (h : list request) :
  coordinates_ok latitude longitude = true ->
  get_current_weather self latitude longitude up h
  = (read_answer (up h (current_request self latitude longitude))
       ≫= parse_current,
     (h ++ [current_request self latitude longitude])%list).
Proof.
  intros Hc. unfold get_current_weather, mbind, io_bind, lift.
  rewrite (validate_passes _ _ Hc), _get_run.
  unfold ok, current_request, result_bind.
  split_matches; first [reflexivity | congruence].
Qed.

Lemma get_forecast_rejected (self : t) (latitude longitude : float) (days : Z)
    (up : upstream) (h : list request) :
  coordinates_ok latitude longitude && days_ok days = false ->
  exists msg,
    get_forecast self latitude longitude days up h
    = (throw (Raised ValueError msg), h).
Proof.
  intros Hc. unfold get_forecast, mbind, io_bind, lift.
  destruct (coordinates_ok latitude longitude) eqn:Hco.
  - rewrite (validate_passes _ _ Hco).
    cbn in Hc. unfold days_ok in Hc. rewrite Hc.
    unfold py_str_int, raise_fault, ok, raise, lift, throw.
    cbn [negb]. destruct (within_str_limit days); cbn [fault_class]; eauto.
  - destruct (validate_rejects _ _ Hco) as [msg ->]. eauto.
Qed.

Lemma get_forecast_run (self : t) (latitude longitude : float) (days : Z)
    (up : upstream) (h : list request) :
  coordinates_ok latitude longitude = true ->
  days_ok days = true ->
  get_forecast self latitude longitude days up h
  = (read_answer (up h (forecast_request self latitude longitude days))
       ≫= parse_forecast latitude longitude,
     (h ++ [forecast_request self latitude longitude days])%list).
Proof.
  intros Hc Hd. unfold get_forecast, mbind, io_bind, lift.
  rewrite (validate_passes _ _ Hc).
  unfold days_ok in Hd. rewrite Hd. unfold ok. cbn [negb]. rewrite _get_run.
  unfold forecast_request, result_bind.
  split_matches; first [reflexivity | congruence].
Qed.
End ClientRuns.

(** ** Input validation *)

(** C2: when the magnitude of the latitude exceeds 90 or that of the
    longitude exceeds 180, both client methods raise [ValueError] and the
    request log is left as it was, so no request has been sent; when the
    latitude lies in [[-90, 90]] and the longitude in [[-180, 180]],
    validation passes, and it passes at the four bounds themselves. *)
Theorem coordinates_checked_before_request `{PyRuntime}
    (self : OpenMeteoClient.t) (latitude longitude : float) (days : Z)
    (up : upstream) (h : list request) :
  (PrimFloat.ltb 90 (PrimFloat.abs latitude) = true
   \/ PrimFloat.ltb 180 (PrimFloat.abs longitude) = true ->
   (exists msg,
      OpenMeteoClient.get_current_weather self latitude longitude up h
      = (throw (Raised ValueError msg), h))
   /\ (exists msg,
         OpenMeteoClient.get_forecast self latitude longitude days up h
         = (throw (Raised ValueError msg), h)))
  /\ (PrimFloat.leb (-90) latitude = true -> PrimFloat.leb latitude 90 = true ->
      PrimFloat.leb (-180) longitude = true -> PrimFloat.leb longitude 180 = true ->
      OpenMeteoClient._validate_coordinates latitude longitude = ok tt)
  /\ OpenMeteoClient._validate_coordinates 90 180 = ok tt
  /\ OpenMeteoClient._validate_coordinates (-90) (-180) = ok tt.
Proof.
  repeat split.
  - apply get_current_weather_rejected, coordinates_ok_beyond; assumption.
  - apply get_forecast_rejected.
    rewrite coordinates_ok_beyond by assumption. reflexivity.
  - intros H1 H2 H3 H4. apply validate_passes.
    unfold coordinates_ok, WeatherLocation.within.
    rewrite H1, H2, H3, H4. reflexivity.
Qed.

Lemma coordinates_checked_before_request_witness :
  (exists msg,
     OpenMeteoClient.get_current_weather (H := sample_runtime) _client 91 0
       (always 200 None) []
     = (throw (Raised ValueError msg), []))
  /\ (exists msg,
        OpenMeteoClient.get_forecast (H := sample_runtime) _client 0 (-180.5) 7
          (always 200 None) []
        = (throw (Raised ValueError msg), []))
  /\ OpenMeteoClient._validate_coordinates (H := sample_runtime) 52.52 13.41 = ok tt.
Proof.
  split; [| split].
  - destruct (coordinates_checked_before_request
                (H := sample_runtime) _client 91 0 7 (always 200 None) [])
      as (Hout & _).
    destruct Hout as [Hcurrent _]; [left; reflexivity |]. exact Hcurrent.
  - destruct (coordinates_checked_before_request
                (H := sample_runtime) _client 0 (-180.5) 7 (always 200 None) [])
      as (Hout & _).
    destruct Hout as [_ Hforecast]; [right; reflexivity |]. exact Hforecast.
  - destruct (coordinates_checked_before_request
                (H := sample_runtime) _client 52.52 13.41 7 (always 200 None) [])
      as (_ & Hin & _).
    apply Hin; reflexivity.
Defined.

(** C3: for [days] below 1 or above 16, [get_forecast] raises [ValueError]
    and the request log is left as it was.  With coordinates in range the
    message is the one of the days check when [days] has at most 4300
    digits; beyond that, rendering [days] into the message raises the
    conversion error, which is a [ValueError] too.  For [days] from 1 to
    16 the days check passes: with coordinates in range the method goes on
    to send its request, which asks for [days] forecast days. *)
Theorem days_checked_before_request `{PyRuntime}
    (self : OpenMeteoClient.t) (latitude longitude : float) (days : Z)
    (up : upstream) (h : list request) :
  (days < 1 \/ 16 < days ->
   (exists msg,
      OpenMeteoClient.get_forecast self latitude longitude days up h
      = (throw (Raised ValueError msg), h))
   /\ (coordinates_ok latitude longitude = true ->
       OpenMeteoClient.get_forecast self latitude longitude days up h
       = (throw (Raised ValueError
                   (if within_str_limit days
                    then "Days must be between 1 and 16, got " ++ str_int days
                    else fault_msg IntTooLongForStr)), h)))
  /\ (1 <= days <= 16 ->
      coordinates_ok latitude longitude = true ->
      OpenMeteoClient.get_forecast self latitude longitude days up h
      = (read_answer (up h (forecast_request self latitude longitude days))
           ≫= OpenMeteoClient.parse_forecast latitude longitude,
         (h ++ [forecast_request self latitude longitude days])%list)
      /\ In ("forecast_days", PInt days)
            (req_params (forecast_request self latitude longitude days))).
Proof.
  split.
  - intros Hout.
    assert (Hd : days_ok days = false) by (unfold days_ok; lia).
    split.
    + apply get_forecast_rejected. rewrite Hd. apply andb_false_r.
    + intros Hc.
      unfold OpenMeteoClient.get_forecast, mbind, io_bind, lift.
      rewrite (validate_passes _ _ Hc).
      unfold days_ok in Hd. rewrite Hd. unfold py_str_int.
      destruct (within_str_limit days); reflexivity.
  - intros Hin Hc. split.
    + apply get_forecast_run; [assumption | unfold days_ok; lia].
    + cbn. tauto.
Qed.

Lemma days_checked_before_request_witness :
  (exists msg,
     OpenMeteoClient.get_forecast (H := sample_runtime) _client 0 0 17
       (always 200 None) []
     = (throw (Raised ValueError msg), []))
  /\ snd (OpenMeteoClient.get_forecast (H := sample_runtime) _client 0 0 16
            (always 200 None) [])
     = [forecast_request _client 0 0 16].
Proof.
  split.
  - destruct (days_checked_before_request
                (H := sample_runtime) _client 0 0 17 (always 200 None) [])
      as (Hout & _).
    destruct Hout as [Hraised _]; [right; lia |]. exact Hraised.
  - destruct (days_checked_before_request
                (H := sample_runtime) _client 0 0 16 (always 200 None) [])
      as [_ Hin].
    destruct Hin as [Hrun _]; [lia | reflexivity |].
    rewrite Hrun. reflexivity.
Defined.

(** ** Weather codes *)

Lemma WMO_TABLE_nonempty_names :
  Forall (fun entry : Z * string => snd entry <> "") WMO_TABLE.
Proof. unfold WMO_TABLE. repeat constructor; discriminate. Qed.

Lemma WMO_CODES_lookup_nonempty (code : Z) (name : string) :
  WMO_CODES !! code = Some name -> name <> "".
Proof.
  intros Hl. apply elem_of_list_to_map_2 in Hl.
  exact (proj1 (Forall_forall _ _) WMO_TABLE_nonempty_names _ Hl).
Qed.

Lemma ok_inj {A : Type} (x y : A) : ok x = ok y -> x = y.
Proof. intros [= ->]. reflexivity. Qed.

Lemma int_str_bound_eq : int_str_bound = 10 ^ int_max_str_digits.
Proof. vm_compute. reflexivity. Qed.

Lemma within_str_limit_spec (n : Z) :
  within_str_limit n = true <-> Z.abs n < 10 ^ 4300.
Proof.
  unfold within_str_limit. rewrite Z.ltb_lt, int_str_bound_eq. reflexivity.
Qed.

Lemma days_ok_within_str_limit (days : Z) :
  days_ok days = true -> within_str_limit days = true.
Proof.
  unfold days_ok, within_str_limit. intros Hd.
  assert (Hbound : 16 < int_str_bound) by (vm_compute; reflexivity).
  apply Z.ltb_lt. lia.
Qed.

Section Conditions.
Context `{PyRuntime}.

(** What the lookup yields for a code that can be rendered. *)
Lemma weather_code_to_conditions_ok (code : Z) :
  within_str_limit code = true ->
  weather_code_to_conditions code
  = ok match WMO_CODES !! code with
       | Some name => name
       | None => "Unknown (code " ++ str_int code ++ ")"
       end.
Proof.
  intros Hlimit. unfold weather_code_to_conditions, py_str_int.
  rewrite Hlimit. reflexivity.
Qed.

Lemma weather_code_to_conditions_raises (code : Z) :
  within_str_limit code = false ->
  weather_code_to_conditions code
  = throw (Raised ValueError (fault_msg IntTooLongForStr)).
Proof.
  intros Hlimit. unfold weather_code_to_conditions, py_str_int.
  rewrite Hlimit. reflexivity.
Qed.

Lemma weather_code_to_conditions_ok_inv (code : Z) (name : string) :
  weather_code_to_conditions code = ok name ->
  within_str_limit code = true
  /\ name = match WMO_CODES !! code with
            | Some known => known
            | None => "Unknown (code " ++ str_int code ++ ")"
            end.
Proof.
  destruct (within_str_limit code) eqn:Hlimit.
  - rewrite (weather_code_to_conditions_ok _ Hlimit). intros Heq.
    apply ok_inj in Heq. split; [reflexivity | symmetry; exact Heq].
  - rewrite (weather_code_to_conditions_raises _ Hlimit).
    unfold throw, ok. intros Heq. discriminate Heq.
Qed.

(** The ints that the handlers render: a code for which the lookup
    returned, and [days] once the days check has passed.  Neither rendering
    can fail, and the text is [str_int] of the int. *)
Lemma looked_up_code_renders (code : Z) (name : string) :
  weather_code_to_conditions code = ok name ->
  py_str_int code = ok (str_int code).
Proof.
  intros Hname. apply weather_code_to_conditions_ok_inv in Hname as [Hlimit _].
  unfold py_str_int. rewrite Hlimit. reflexivity.
Qed.

Lemma accepted_days_render (days : Z) :
  days_ok days = true -> py_str_int days = ok (str_int days).
Proof.
  intros Hd. unfold py_str_int.
  rewrite (days_ok_within_str_limit _ Hd). reflexivity.
Qed.
End Conditions.

(** C4: for every integer code of at most 4300 decimal digits the lookup
    returns a non-empty string, and for such a code that is not a key of
    the table the result contains the decimal rendering of the code; code
    2 gives "Partly cloudy", code 63 gives "Moderate rain", and the result
    for code 999 contains "Unknown" and "999".  For a code of more than
    4300 digits the fallback text, which is built on every call, cannot be
    rendered and the lookup raises [ValueError]. *)
Theorem weather_code_lookup_total `{PyRuntime} (code : Z) :
  (within_str_limit code = true ->
   exists name,
     weather_code_to_conditions code = ok name
     /\ name <> ""
     /\ (WMO_CODES !! code = None -> contains (str_int code) name))
  /\ (within_str_limit code = false ->
      weather_code_to_conditions code
      = throw (Raised ValueError (fault_msg IntTooLongForStr)))
  /\ weather_code_to_conditions 2 = ok "Partly cloudy"
  /\ weather_code_to_conditions 63 = ok "Moderate rain"
  /\ (exists name,
        weather_code_to_conditions 999 = ok name
        /\ contains "Unknown" name /\ contains "999" name).
Proof.
  split; [| split; [| split; [| split]]].
  - intros Hlimit. rewrite (weather_code_to_conditions_ok _ Hlimit).
    eexists. split; [reflexivity |].
    destruct (WMO_CODES !! code) as [name |] eqn:Hl.
    + split; [exact (WMO_CODES_lookup_nonempty _ _ Hl) | discriminate].
    + split; [intros Heq; discriminate Heq |]. intros _. find_substring.
  - apply weather_code_to_conditions_raises.
  - rewrite weather_code_to_conditions_ok by (vm_compute; reflexivity).
    vm_compute. reflexivity.
  - rewrite weather_code_to_conditions_ok by (vm_compute; reflexivity).
    vm_compute. reflexivity.
  - rewrite weather_code_to_conditions_ok by (vm_compute; reflexivity).
    eexists. split; [reflexivity |]. split; vm_compute; reflexivity.
Qed.

Lemma weather_code_lookup_total_witness :
  (exists name,
     weather_code_to_conditions (H := sample_runtime) (-7) = ok name
     /\ contains "-7" name)
  /\ weather_code_to_conditions (H := sample_runtime) (10 ^ 4300)
     = throw (Raised ValueError "<fault>").
Proof.
  split.
  - destruct (weather_code_lookup_total (H := sample_runtime) (-7))
      as (Hwithin & _).
    destruct Hwithin as (name & Hname & _ & Habsent); [vm_compute; reflexivity |].
    exists name. split; [exact Hname |].
    apply Habsent. vm_compute. reflexivity.
  - destruct (weather_code_lookup_total (H := sample_runtime) (10 ^ 4300))
      as (_ & Hbeyond & _).
    apply Hbeyond. vm_compute. reflexivity.
Defined.

(** C4, as stated, fails: for the code 10^4300, which has 4301 digits, the
    lookup raises instead of returning a string. *)
Lemma weather_code_lookup_raises_beyond_digit_limit :
  ~ (forall (R : PyRuntime) (code : Z),
       exists name, weather_code_to_conditions code = ok name /\ name <> "").
Proof.
  intros Hclaim.
  destruct (Hclaim sample_runtime (10 ^ 4300)) as (name & Hname & _).
  rewrite weather_code_to_conditions_raises in Hname by (vm_compute; reflexivity).
  discriminate Hname.
Qed.

(** ** The coordinates record *)

Section Location.
Context `{PyRuntime}.

Lemma new_ok_iff (latitude longitude : float) (loc : WeatherLocation.t) :
  WeatherLocation.new latitude longitude = ok loc <->
  coordinates_ok latitude longitude = true
  /\ loc = WeatherLocation.mk latitude longitude.
Proof.
  unfold WeatherLocation.new, coordinates_ok, raise_fault, throw, ok.
  destruct (WeatherLocation.within (-90) 90 latitude),
           (WeatherLocation.within (-180) 180 longitude); cbn;
    split; try (intros [? ?]); try discriminate; try congruence.
  all: intros [= <-]; auto.
Qed.

Lemma new_rejects (latitude longitude : float) :
  coordinates_ok latitude longitude = false ->
  exists msg,
    WeatherLocation.new latitude longitude = throw (Raised ValidationError msg).
Proof.
  unfold WeatherLocation.new, coordinates_ok, raise_fault, fault_class.
  destruct (WeatherLocation.within (-90) 90 latitude),
           (WeatherLocation.within (-180) 180 longitude); cbn;
    try discriminate; eauto.
Qed.
End Location.

(** C9: a [WeatherLocation] built from latitude 52.52 and longitude 13.41
    is constructed, and its two fields read back as exactly those values,
    both as identical floats and under Python's [==]. *)
Theorem weather_location_round_trip `{PyRuntime} :
  exists loc,
    WeatherLocation.new 52.52 13.41 = ok loc
    /\ WeatherLocation.latitude loc = 52.52%float
    /\ WeatherLocation.longitude loc = 13.41%float
    /\ PrimFloat.eqb (WeatherLocation.latitude loc) 52.52 = true
    /\ PrimFloat.eqb (WeatherLocation.longitude loc) 13.41 = true.
Proof.
  exists (WeatherLocation.mk 52.52 13.41). repeat split.
Qed.

(** ** The forecast loop *)

Section ForecastLoop.
Context `{PyRuntime}.
Import OpenMeteoClient.

Lemma forecast_step_at (daily : json) (fs : list DailyForecast.t) (i : nat) :
  forecast_step daily fs i
  = (forecast_at daily i ≫= fun d => ok (fs ++ [d])%list).
Proof.
  unfold forecast_step, forecast_at, mbind, result_bind, ok.
  split_matches; first [reflexivity | congruence].
Qed.

(** The loop succeeds exactly when every index yields a forecast, and it
    then appends these forecasts in index order. *)
Lemma for_each_forecasts (daily : json) (n : nat) :
  forall (start : nat) (acc fs : list DailyForecast.t),
    for_each (seq start n) (forecast_step daily) acc = ok fs <->
    exists ds,
      fs = (acc ++ ds)%list
      /\ Forall2 (fun i d => forecast_at daily i = ok d) (seq start n) ds.
Proof.
  induction n as [| n IH]; intros start acc fs; cbn [seq for_each].
  - split.
    + intros [= <-]. exists []. rewrite app_nil_r. split; constructor.
    + intros (ds & -> & Hall). inversion Hall. rewrite app_nil_r. reflexivity.
  - rewrite forecast_step_at. unfold mbind, result_bind.
    destruct (forecast_at daily start) as [e | d] eqn:Hd.
    + split; [discriminate |].
      intros (ds & _ & Hall). inversion Hall; subst.
      unfold ok in *. congruence.
    + unfold ok at 1. rewrite IH. split.
      * intros (ds & -> & Hall). exists (d :: ds).
        rewrite <- app_assoc. split; [reflexivity |].
        constructor; assumption.
      * intros (ds & -> & Hall). inversion Hall as [| ? d' ? ds' Hd' Hrest]; subst.
        assert (d' = d) as -> by (unfold ok in *; congruence).
        exists ds'. rewrite <- app_assoc. split; [reflexivity | assumption].
Qed.

Lemma parse_forecast_ok_iff (latitude longitude : float) (data : json)
    (resp : ForecastResponse.t) :
  parse_forecast latitude longitude data = ok resp <->
  exists daily times n,
    py_getitem data "daily" = ok daily
    /\ py_getitem daily "time" = ok times
    /\ py_len times = ok n
    /\ Forall2 (fun i d => forecast_at daily i = ok d) (range n)
               (ForecastResponse.forecasts resp)
    /\ coordinates_ok latitude longitude = true
    /\ ForecastResponse.location resp = WeatherLocation.mk latitude longitude.
Proof.
  unfold parse_forecast, mbind, result_bind. split.
  - destruct (py_getitem data "daily") as [e | daily] eqn:Hdaily; [discriminate |].
    destruct (py_getitem daily "time") as [e | times] eqn:Htimes; [discriminate |].
    destruct (py_len times) as [e | n] eqn:Hn; [discriminate |].
    destruct (for_each _ _ _) as [e | fs] eqn:Hloop; [discriminate |].
    destruct (WeatherLocation.new _ _) as [e | loc] eqn:Hloc; [discriminate |].
    intros [= <-]. cbn.
    apply for_each_forecasts in Hloop as (ds & -> & Hall).
    apply new_ok_iff in Hloc as [Hc ->].
    exists daily, times, n. repeat split; try assumption; reflexivity.
  - intros (daily & times & n & Hdaily & Htimes & Hn & Hall & Hc & Hloc).
    assert (Hloop : for_each (range n) (forecast_step daily) []
                    = ok (ForecastResponse.forecasts resp)).
    { apply for_each_forecasts. eexists. split; [reflexivity | exact Hall]. }
    pose proof (proj2 (new_ok_iff latitude longitude _) (conj Hc eq_refl)) as Hnew.
    unfold ok in *.
    rewrite Hdaily. cbv beta iota. rewrite Htimes. cbv beta iota.
    rewrite Hn. cbv beta iota. rewrite Hloop. cbv beta iota.
    rewrite Hnew. cbv beta iota.
    destruct resp as [loc fs]. cbn in Hloc. subst loc. reflexivity.
Qed.

Lemma get_forecast_ok_iff (self : t) (latitude longitude : float) (days : Z)
    (up : upstream) (h h' : list request) (resp : ForecastResponse.t) :
  get_forecast self latitude longitude days up h = (ok resp, h') <->
  coordinates_ok latitude longitude = true
  /\ days_ok days = true
  /\ h' = (h ++ [forecast_request self latitude longitude days])%list
  /\ exists data,
       read_answer (up h (forecast_request self latitude longitude days)) = ok data
       /\ parse_forecast latitude longitude data = ok resp.
Proof.
  destruct (coordinates_ok latitude longitude && days_ok days) eqn:Hv.
  - apply andb_true_iff in Hv as [Hc Hd].
    rewrite (get_forecast_run _ _ _ _ _ _ Hc Hd).
    unfold mbind, result_bind. split.
    + destruct (read_answer _) as [e | data]; [discriminate |].
      intros [= Hp <-]. repeat split; try assumption.
      exists data. split; [reflexivity | exact Hp].
    + intros (_ & _ & -> & data & -> & Hp). unfold ok in *. congruence.
  - destruct (get_forecast_rejected self _ _ _ up h Hv) as [msg ->]. split.
    + discriminate.
    + intros (Hc & Hd & _). rewrite Hc, Hd in Hv. discriminate.
Qed.
End ForecastLoop.


(** C10: constructing a [WeatherLocation] whose latitude is not within
    [[-90, 90]] or whose longitude is not within [[-180, 180]] fails with a
    validation error, whatever the client checked before; a location that
    was constructed has both fields within their bounds; and so has the
    location of every [ForecastResponse] that [get_forecast] returns. *)
Theorem weather_location_enforces_bounds `{PyRuntime}
    (latitude longitude : float) :
  (WeatherLocation.within (-90) 90 latitude = false
   \/ WeatherLocation.within (-180) 180 longitude = false ->
   exists msg,
     WeatherLocation.new latitude longitude = throw (Raised ValidationError msg))
  /\ (forall loc,
        WeatherLocation.new latitude longitude = ok loc ->
        WeatherLocation.within (-90) 90 (WeatherLocation.latitude loc) = true
        /\ WeatherLocation.within (-180) 180 (WeatherLocation.longitude loc) = true)
  /\ (forall self days up h resp h',
        OpenMeteoClient.get_forecast self latitude longitude days up h
        = (ok resp, h') ->
        WeatherLocation.within (-90) 90
          (WeatherLocation.latitude (ForecastResponse.location resp)) = true
        /\ WeatherLocation.within (-180) 180
             (WeatherLocation.longitude (ForecastResponse.location resp)) = true).
Proof.
  split; [| split].
  - intros Hout. apply new_rejects. unfold coordinates_ok.
    destruct Hout as [-> | ->]; [reflexivity | apply andb_false_r].
  - intros loc [Hc ->]%new_ok_iff. cbn.
    unfold coordinates_ok in Hc. apply andb_true_iff in Hc. exact Hc.
  - intros self days up h resp h' Hrun.
    apply get_forecast_ok_iff in Hrun as (_ & _ & _ & data & _ & Hparse).
    apply parse_forecast_ok_iff in Hparse
      as (daily & times & n & _ & _ & _ & _ & Hc & ->).
    cbn. unfold coordinates_ok in Hc. apply andb_true_iff in Hc. exact Hc.
Qed.

Lemma weather_location_enforces_bounds_witness :
  (exists msg,
     WeatherLocation.new (H := sample_runtime) 100 0
     = throw (Raised ValidationError msg))
  /\ WeatherLocation.within (-90) 90
       (WeatherLocation.latitude (WeatherLocation.mk 52.52 13.41)) = true.
Proof.
  split.
  - destruct (weather_location_enforces_bounds (H := sample_runtime) 100 0)
      as (Hout & _).
    apply Hout. left. reflexivity.
  - destruct (weather_location_enforces_bounds (H := sample_runtime) 52.52 13.41)
      as (_ & Hin & _).
    destruct (Hin (WeatherLocation.mk 52.52 13.41) eq_refl) as [Hlat _].
    exact Hlat.
Defined.

(** ** The tool handlers *)

Section ToolRuns.
Context `{PyRuntime}.

Lemma fold_left_append_lines (fs : list DailyForecast.t) (lines : list string) :
  fold_left (fun lines day => (lines ++ [forecast_line day])%list) fs lines
  = (lines ++ map forecast_line fs)%list.
Proof.
  revert lines. induction fs as [| d fs IH]; intros lines; cbn [fold_left map].
  - rewrite app_nil_r. reflexivity.
  - rewrite IH, <- app_assoc. reflexivity.
Qed.

Lemma format_forecast_lines (latitude longitude : float) (days : Z)
    (forecast : ForecastResponse.t) :
  format_forecast latitude longitude days forecast
  = join nl (forecast_header latitude longitude days
             :: map forecast_line (ForecastResponse.forecasts forecast)).
Proof. unfold format_forecast. rewrite fold_left_append_lines. reflexivity. Qed.

Lemma get_forecast_formats (latitude longitude : float) (days : Z)
    (up : upstream) (h h' : list request) (resp : ForecastResponse.t) :
  OpenMeteoClient.get_forecast _client latitude longitude days up h = (ok resp, h') ->
  get_forecast latitude longitude days up h
  = (ok (format_forecast latitude longitude days resp), h').
Proof.
  intros Hrun. unfold get_forecast, try_except, mbind, io_bind.
  rewrite Hrun. reflexivity.
Qed.

Lemma get_current_weather_formats (latitude longitude : float)
    (up : upstream) (h h' : list request) (weather : CurrentWeather.t) :
  OpenMeteoClient.get_current_weather _client latitude longitude up h
  = (ok weather, h') ->
  get_current_weather latitude longitude up h
  = (ok (format_current latitude longitude weather), h').
Proof.
  intros Hrun. unfold get_current_weather, try_except, mbind, io_bind.
  rewrite Hrun. reflexivity.
Qed.

(** What the three [except] clauses of [get_forecast] return. *)
Lemma get_forecast_recovers (latitude longitude : float) (days : Z)
    (up : upstream) (h h' : list request) (e : exn) :
  OpenMeteoClient.get_forecast _client latitude longitude days up h = (throw e, h') ->
  get_forecast latitude longitude days up h
  = (ok match e with
        | Raised c msg =>
            if is_ValueError c then "Error: " ++ msg
            else "Error: An unexpected error occurred – " ++ msg
        | HTTPStatusError status_code _ =>
            "Error: Failed to fetch forecast – " ++ str_int status_code
        end, h').
Proof.
  intros Hrun. unfold get_forecast, try_except, mbind, io_bind.
  rewrite Hrun. unfold throw. cbn [dispatch].
  destruct e as [c msg | status_code msg]; cbn; [destruct (is_ValueError c) |];
    reflexivity.
Qed.

(** What the three [except] clauses of [get_current_weather] return. *)
Lemma get_current_weather_recovers (latitude longitude : float)
    (up : upstream) (h h' : list request) (e : exn) :
  OpenMeteoClient.get_current_weather _client latitude longitude up h = (throw e, h') ->
  get_current_weather latitude longitude up h
  = (ok match e with
        | Raised c msg =>
            if is_ValueError c then "Error: " ++ msg
            else "Error: An unexpected error occurred – " ++ msg
        | HTTPStatusError status_code _ =>
            "Error: Failed to fetch weather data – " ++ str_int status_code
        end, h').
Proof.
  intros Hrun. unfold get_current_weather, try_except, mbind, io_bind.
  rewrite Hrun. unfold throw. cbn [dispatch].
  destruct e as [c msg | status_code msg]; cbn; [destruct (is_ValueError c) |];
    reflexivity.
Qed.

Lemma forecast_at_arrays (daily : gmap string json)
    (times maxs mins precs codes : list json) (i : nat) (d : DailyForecast.t) :
  daily_arrays daily times maxs mins precs codes ->
  forecast_at (JObj daily) i = ok d <-> built_from times maxs mins precs codes i d.
Proof.
  intros (Ht & Hmx & Hmn & Hp & Hc).
  unfold forecast_at, built_from, py_getitem, mbind, result_bind.
  rewrite Ht, Hmx, Hmn, Hp, Hc. unfold py_index, raise_fault, throw, ok.
  cbv beta iota. split.
  - destruct (codes !! i) as [c |] eqn:Hci; cbv beta iota; [| intros [=]].
    destruct (py_int c) as [e | code] eqn:Hcode; cbv beta iota; [intros [=] |].
    destruct (times !! i) as [t |] eqn:Hti; cbv beta iota; [| intros [=]].
    destruct (py_date_fromisoformat t) as [e | fd] eqn:Hfd; cbv beta iota; [intros [=] |].
    destruct (mins !! i) as [mn |] eqn:Hmni; cbv beta iota; [| intros [=]].
    destruct (py_float mn) as [e | tmin] eqn:Htmin; cbv beta iota; [intros [=] |].
    destruct (maxs !! i) as [mx |] eqn:Hmxi; cbv beta iota; [| intros [=]].
    destruct (py_float mx) as [e | tmax] eqn:Htmax; cbv beta iota; [intros [=] |].
    destruct (precs !! i) as [p |] eqn:Hpi; cbv beta iota; [| intros [=]].
    destruct (py_float p) as [e | pr] eqn:Hpr; cbv beta iota; [intros [=] |].
    destruct (weather_code_to_conditions code) as [e | cond] eqn:Hcond;
      cbv beta iota; [intros [=] |].
    intros [= <-]. exists t, mx, mn, p, c.
    cbn [DailyForecast.forecast_date DailyForecast.temperature_min
         DailyForecast.temperature_max DailyForecast.precipitation
         DailyForecast.weather_code DailyForecast.conditions].
    repeat split; assumption.
  - intros (t & mx & mn & p & c & -> & -> & -> & -> & -> & Hfd & Htmin & Htmax
            & Hpr & Hcode & Hcond).
    rewrite Hcode, Hfd, Htmin, Htmax, Hpr. cbv beta iota. rewrite Hcond.
    destruct d; reflexivity.
Qed.
End ToolRuns.

(** ** Forecast mapping *)

(** C5: let the answer to the forecast request pass [_get] with a body
    whose ["daily"] object holds the five arrays.  Then the client method
    succeeds exactly when the inputs are valid and every index of the
    [time] array has, in each array, an element that converts; its
    forecasts are then the records built from index 0, 1, ... of the
    arrays, one per index and in array order.  The handler returns the
    header line followed by one line per forecast, in that order, joined
    by line feeds; for three forecasts that is the header and three lines.
    Each line embeds the day's minimum temperature, maximum temperature
    and condition string. *)
Theorem forecast_maps_each_index `{PyRuntime}
    (latitude longitude : float) (days : Z) (up : upstream) (h : list request)
    (data : json) (daily : gmap string json)
    (times maxs mins precs codes : list json) :
  read_answer (up h (forecast_request _client latitude longitude days)) = ok data ->
  py_getitem data "daily" = ok (JObj daily) ->
  daily_arrays daily times maxs mins precs codes ->
  (forall resp h',
     OpenMeteoClient.get_forecast _client latitude longitude days up h = (ok resp, h')
     <-> coordinates_ok latitude longitude = true
         /\ days_ok days = true
         /\ h' = (h ++ [forecast_request _client latitude longitude days])%list
         /\ ForecastResponse.location resp = WeatherLocation.mk latitude longitude
         /\ Forall2 (built_from times maxs mins precs codes)
                    (seq 0 (length times)) (ForecastResponse.forecasts resp))
  /\ (forall resp h',
        OpenMeteoClient.get_forecast _client latitude longitude days up h
        = (ok resp, h') ->
        length (ForecastResponse.forecasts resp) = length times
        /\ (forall i d,
              ForecastResponse.forecasts resp !! i = Some d ->
              built_from times maxs mins precs codes i d)
        /\ get_forecast latitude longitude days up h
           = (ok (join nl (forecast_header latitude longitude days
                           :: map forecast_line (ForecastResponse.forecasts resp))),
              h')
        /\ (forall d1 d2 d3,
              ForecastResponse.forecasts resp = [d1; d2; d3] ->
              get_forecast latitude longitude days up h
              = (ok (forecast_header latitude longitude days ++ nl
                     ++ forecast_line d1 ++ nl
                     ++ forecast_line d2 ++ nl
                     ++ forecast_line d3), h')))
  /\ (forall d,
        contains (float_repr (DailyForecast.temperature_min d)) (forecast_line d)
        /\ contains (float_repr (DailyForecast.temperature_max d)) (forecast_line d)
        /\ contains (DailyForecast.conditions d) (forecast_line d)).
Proof.
  intros Hdata Hdaily Harrays.
  assert (Hiff : forall resp h',
     OpenMeteoClient.get_forecast _client latitude longitude days up h = (ok resp, h')
     <-> coordinates_ok latitude longitude = true
         /\ days_ok days = true
         /\ h' = (h ++ [forecast_request _client latitude longitude days])%list
         /\ ForecastResponse.location resp = WeatherLocation.mk latitude longitude
         /\ Forall2 (built_from times maxs mins precs codes)
                    (seq 0 (length times)) (ForecastResponse.forecasts resp)).
  { intros resp h'. rewrite get_forecast_ok_iff. split.
    - intros (Hc & Hd & Hh & data' & Hdata' & Hparse).
      assert (data' = data) as -> by (unfold ok in *; congruence).
      apply parse_forecast_ok_iff in Hparse
        as (daily' & times' & n & Hdaily' & Htimes & Hn & Hall & _ & Hloc).
      assert (daily' = JObj daily) as -> by (unfold ok in *; congruence).
      destruct Harrays as (Ht & Hrest). pose proof Htimes as Htimes'.
      cbn in Htimes'. rewrite Ht in Htimes'. injection Htimes' as <-.
      cbn in Hn. injection Hn as <-.
      repeat split; try assumption.
      eapply Forall2_impl; [exact Hall |].
      intros i d Hat. apply (forecast_at_arrays daily); [| exact Hat].
      split; assumption.
    - intros (Hc & Hd & Hh & Hloc & Hall). repeat split; try assumption.
      exists data. split; [assumption |].
      apply parse_forecast_ok_iff.
      exists (JObj daily), (JArr times), (length times).
      repeat split; try assumption.
      + cbn. destruct Harrays as (-> & _). reflexivity.
      + eapply Forall2_impl; [exact Hall |].
        intros i d Hat. apply (forecast_at_arrays daily) in Hat; assumption. }
  split; [exact Hiff | split].
  - intros resp h' Hrun.
    pose proof (proj1 (Hiff resp h') Hrun) as (_ & _ & _ & _ & Hall).
    pose proof (get_forecast_formats _ _ _ _ _ _ _ Hrun) as Hfmt.
    rewrite format_forecast_lines in Hfmt.
    split; [| split; [| split]].
    + apply Forall2_length in Hall. rewrite length_seq in Hall. congruence.
    + intros i d Hd.
      destruct (Forall2_lookup_r _ _ _ _ _ Hall Hd) as (j & Hj & Hb).
      apply lookup_seq in Hj as [-> _]. exact Hb.
    + exact Hfmt.
    + intros d1 d2 d3 Hfs. rewrite Hfmt, Hfs. reflexivity.
  - intros d. unfold forecast_line. repeat split; find_substring.
Qed.

Lemma forecast_maps_each_index_witness :
  get_forecast (H := sample_runtime) 52.52 13.41 3
    (always 200 (Some FORECAST_RESPONSE)) []
  = (ok ("Weather forecast for (<float>, <float>) – 3 day(s):" ++ nl ++ nl
         ++ "  2025-06-15: Clear sky (WMO 0), <float>°C – <float>°C, Precipitation: <float> mm"
         ++ nl
         ++ "  2025-06-16: Moderate rain (WMO 63), <float>°C – <float>°C, Precipitation: <float> mm"
         ++ nl
         ++ "  2025-06-17: Mainly clear (WMO 1), <float>°C – <float>°C, Precipitation: <float> mm"),
     [forecast_request _client 52.52 13.41 3]).
Proof.
  destruct (forecast_maps_each_index (H := sample_runtime) 52.52 13.41 3
              (always 200 (Some FORECAST_RESPONSE)) [] FORECAST_RESPONSE
              FORECAST_DAILY FORECAST_TIMES FORECAST_MAXS FORECAST_MINS
              FORECAST_PRECS FORECAST_CODES)
    as (_ & Hrun & _).
  - vm_compute. reflexivity.
  - vm_compute. reflexivity.
  - repeat split; vm_compute; reflexivity.
  - pose (run := OpenMeteoClient.get_forecast (H := sample_runtime) _client
                   52.52 13.41 3 (always 200 (Some FORECAST_RESPONSE)) []).
    assert (Hok : exists resp h' d1 d2 d3,
               run = (ok resp, h') /\ ForecastResponse.forecasts resp = [d1; d2; d3]).
    { vm_compute. do 5 eexists. split; reflexivity. }
    destruct Hok as (resp & h' & d1 & d2 & d3 & Heq & Hfs).
    destruct (Hrun resp h' Heq) as (_ & _ & _ & Hthree).
    rewrite (Hthree d1 d2 d3 Hfs).
    revert Heq Hfs. vm_compute. intros [= <- <-] [= <- <- <-]. reflexivity.
Defined.

(** C6: on success the forecasts are as many as the elements of the
    ["time"] sequence that the upstream returned, one per element and in
    that order.  The count is read off the response; it is not compared
    with the [days] argument. *)
Theorem forecasts_follow_upstream `{PyRuntime}
    (self : OpenMeteoClient.t) (latitude longitude : float) (days : Z)
    (up : upstream) (h h' : list request) (resp : ForecastResponse.t) :
  OpenMeteoClient.get_forecast self latitude longitude days up h = (ok resp, h') ->
  exists data daily times n,
    read_answer (up h (forecast_request self latitude longitude days)) = ok data
    /\ py_getitem data "daily" = ok daily
    /\ py_getitem daily "time" = ok times
    /\ py_len times = ok n
    /\ length (ForecastResponse.forecasts resp) = n
    /\ forall i, (i < n)%nat ->
         exists d,
           forecast_at daily i = ok d
           /\ ForecastResponse.forecasts resp !! i = Some d.
Proof.
  intros Hrun.
  apply get_forecast_ok_iff in Hrun as (_ & _ & _ & data & Hdata & Hparse).
  apply parse_forecast_ok_iff in Hparse
    as (daily & times & n & Hdaily & Htimes & Hn & Hall & _ & _).
  exists data, daily, times, n. repeat split; try assumption.
  - apply Forall2_length in Hall. unfold range in Hall.
    rewrite length_seq in Hall. congruence.
  - intros i Hi.
    assert (Hseq : range n !! i = Some i)
      by (unfold range; apply lookup_seq; split; [reflexivity | exact Hi]).
    destruct (Forall2_lookup_l _ _ _ _ _ Hall Hseq) as (d & Hd & Hat).
    exists d. split; assumption.
Qed.

Lemma forecasts_follow_upstream_witness :
  exists resp h',
    OpenMeteoClient.get_forecast (H := sample_runtime) _client 52.52 13.41 7
      (always 200 (Some FORECAST_RESPONSE)) [] = (ok resp, h')
    /\ length (ForecastResponse.forecasts resp) = 3%nat.
Proof.
  pose (run := OpenMeteoClient.get_forecast (H := sample_runtime) _client
                 52.52 13.41 7 (always 200 (Some FORECAST_RESPONSE)) []).
  assert (Hok : exists resp h', run = (ok resp, h')).
  { vm_compute. do 2 eexists. reflexivity. }
  destruct Hok as (resp & h' & Heq). unfold run in Heq.
  exists resp, h'. split; [exact Heq |].
  destruct (forecasts_follow_upstream (H := sample_runtime) _ _ _ _ _ _ _ _ Heq)
    as (data & daily & times & n & Hdata & Hdaily & Htimes & Hn & Hlen & _).
  rewrite Hlen. revert Hdata Hdaily Htimes Hn. vm_compute.
  intros [= <-] [= <-] [= <-] [= <-]. reflexivity.
Defined.

(** C6, as stated, fails: asked for 7 days, with an upstream that answers
    with the three-day body, [get_forecast] succeeds with three forecasts. *)
Lemma forecast_count_may_differ_from_days :
  ~ (forall (R : PyRuntime) latitude longitude days up h resp h',
       OpenMeteoClient.get_forecast _client latitude longitude days up h
       = (ok resp, h') ->
       Z.of_nat (length (ForecastResponse.forecasts resp)) = days).
Proof.
  intros Hclaim.
  pose (run := OpenMeteoClient.get_forecast (H := sample_runtime) _client
                 52.52 13.41 7 (always 200 (Some FORECAST_RESPONSE)) []).
  assert (Hok : exists resp h',
             run = (ok resp, h')
             /\ length (ForecastResponse.forecasts resp) = 3%nat).
  { vm_compute. do 2 eexists. split; reflexivity. }
  destruct Hok as (resp & h' & Heq & Hlen). unfold run in Heq.
  specialize (Hclaim sample_runtime _ _ _ _ _ _ _ Heq).
  rewrite Hlen in Hclaim. discriminate Hclaim.
Qed.

(** ** Answers that make [_get] raise *)

Section Answers.
Context `{PyRuntime}.

Lemma read_answer_bad_status (resp : response) :
  httpx.is_success resp = false ->
  read_answer (ok resp)
  = throw (HTTPStatusError (resp_status resp) (http_status_msg (resp_status resp))).
Proof.
  intros Hs. unfold read_answer, httpx.raise_for_status, mbind, result_bind, ok.
  rewrite Hs. reflexivity.
Qed.

Lemma read_answer_envelope (resp : response) (body : gmap string json) (flag : json) :
  httpx.is_success resp = true ->
  resp_json resp = Some (JObj body) ->
  body !! "error" = Some flag ->
  py_bool flag = true ->
  read_answer (ok resp)
  = throw (Raised RuntimeError
             ("Open-Meteo API error: " ++ py_str (envelope_reason body))).
Proof.
  intros Hs Hbody Hflag Htrue.
  unfold read_answer, httpx.raise_for_status, httpx.json_of, mbind, result_bind, ok.
  rewrite Hs, Hbody. cbn [py_in py_getitem py_get]. unfold ok.
  rewrite Hflag, Htrue.
  rewrite bool_decide_eq_true_2 by (eexists; reflexivity).
  reflexivity.
Qed.

(** With every answer outside the 2xx range, both client methods raise. *)
Lemma clients_raise_without_success (latitude longitude : float) (days : Z)
    (up : upstream) (h : list request) :
  (forall h0 req resp, up h0 req = ok resp -> httpx.is_success resp = false) ->
  (exists e h',
     OpenMeteoClient.get_current_weather _client latitude longitude up h
     = (throw e, h'))
  /\ (exists e h',
        OpenMeteoClient.get_forecast _client latitude longitude days up h
        = (throw e, h')).
Proof.
  intros Hbad.
  assert (Hread : forall req, exists e, read_answer (up h req) = throw e).
  { intros req. destruct (up h req) as [e | resp] eqn:Hup.
    - exists e. reflexivity.
    - eexists. apply read_answer_bad_status. exact (Hbad _ _ _ Hup). }
  split.
  - destruct (coordinates_ok latitude longitude) eqn:Hc.
    + rewrite (get_current_weather_run _ _ _ _ _ Hc).
      destruct (Hread (current_request _client latitude longitude)) as [e ->].
      eauto.
    + destruct (get_current_weather_rejected _client _ _ up h Hc) as [msg ->].
      eauto.
  - destruct (coordinates_ok latitude longitude && days_ok days) eqn:Hv.
    + apply andb_true_iff in Hv as [Hc Hd].
      rewrite (get_forecast_run _ _ _ _ _ _ Hc Hd).
      destruct (Hread (forecast_request _client latitude longitude days)) as [e ->].
      eauto.
    + destruct (get_forecast_rejected _client _ _ _ up h Hv) as [msg ->].
      eauto.
Qed.

Lemma recovered_starts_with_Error (e : exn) (what : string) :
  starts_with "Error: "
    match e with
    | Raised c msg =>
        if is_ValueError c then "Error: " ++ msg
        else "Error: An unexpected error occurred – " ++ msg
    | HTTPStatusError status_code _ => "Error: " ++ what ++ str_int status_code
    end.
Proof.
  destruct e as [c msg | status_code msg]; [destruct (is_ValueError c) |].
  - apply (prefix_append "Error: " msg).
  - apply (prefix_append "Error: " ("An unexpected error occurred – " ++ msg)).
  - apply (prefix_append "Error: " (what ++ str_int status_code)).
Qed.
End Answers.

(** ** Error handling in the handlers *)

(** C1: whatever the upstream does and whatever the inputs are, each
    handler returns a string and never an exception; when the client call
    raised, whatever it raised, that string begins with "Error: ".  When no
    answer of the upstream has a 2xx status, the string of each handler
    begins with "Error: " and so contains "Error"; with valid inputs it
    is the fetch-failure message carrying the status code. *)
Theorem handlers_never_raise `{PyRuntime}
    (latitude longitude : float) (days : Z) (up : upstream) (h : list request) :
  (exists out,
     fst (get_current_weather latitude longitude up h) = ok out
     /\ (forall e,
           fst (OpenMeteoClient.get_current_weather _client latitude longitude up h)
           = throw e ->
           starts_with "Error: " out))
  /\ (exists out,
        fst (get_forecast latitude longitude days up h) = ok out
        /\ (forall e,
              fst (OpenMeteoClient.get_forecast _client latitude longitude days up h)
              = throw e ->
              starts_with "Error: " out))
  /\ ((forall h0 req resp, up h0 req = ok resp -> httpx.is_success resp = false) ->
      (exists out,
         fst (get_current_weather latitude longitude up h) = ok out
         /\ starts_with "Error: " out /\ contains "Error" out)
      /\ (exists out,
            fst (get_forecast latitude longitude days up h) = ok out
            /\ starts_with "Error: " out /\ contains "Error" out))
  /\ (forall resp,
        coordinates_ok latitude longitude = true ->
        up h (current_request _client latitude longitude) = ok resp ->
        httpx.is_success resp = false ->
        fst (get_current_weather latitude longitude up h)
        = ok ("Error: Failed to fetch weather data – " ++ str_int (resp_status resp)))
  /\ (forall resp,
        coordinates_ok latitude longitude = true ->
        days_ok days = true ->
        up h (forecast_request _client latitude longitude days) = ok resp ->
        httpx.is_success resp = false ->
        fst (get_forecast latitude longitude days up h)
        = ok ("Error: Failed to fetch forecast – " ++ str_int (resp_status resp))).
Proof.
  assert (Hcw : exists out,
     fst (get_current_weather latitude longitude up h) = ok out
     /\ (forall e,
           fst (OpenMeteoClient.get_current_weather _client latitude longitude up h)
           = throw e ->
           starts_with "Error: " out)).
  { destruct (OpenMeteoClient.get_current_weather _client latitude longitude up h)
      as [[e | weather] h'] eqn:Hrun.
    - rewrite (get_current_weather_recovers _ _ _ _ _ _ Hrun).
      eexists. split; [reflexivity |]. intros _ _.
      apply (recovered_starts_with_Error e "Failed to fetch weather data – ").
    - rewrite (get_current_weather_formats _ _ _ _ _ _ Hrun).
      eexists. split; [reflexivity |]. intros e [=]. }
  assert (Hfc : exists out,
     fst (get_forecast latitude longitude days up h) = ok out
     /\ (forall e,
           fst (OpenMeteoClient.get_forecast _client latitude longitude days up h)
           = throw e ->
           starts_with "Error: " out)).
  { destruct (OpenMeteoClient.get_forecast _client latitude longitude days up h)
      as [[e | forecast] h'] eqn:Hrun.
    - rewrite (get_forecast_recovers _ _ _ _ _ _ _ Hrun).
      eexists. split; [reflexivity |]. intros _ _.
      apply (recovered_starts_with_Error e "Failed to fetch forecast – ").
    - rewrite (get_forecast_formats _ _ _ _ _ _ _ Hrun).
      eexists. split; [reflexivity |]. intros e [=]. }
  split; [exact Hcw | split; [exact Hfc | split; [| split]]].
  - intros Hbad.
    destruct (clients_raise_without_success latitude longitude days up h Hbad)
      as [(e1 & h1 & Hr1) (e2 & h2 & Hr2)].
    destruct Hcw as (out1 & Hout1 & Herr1). destruct Hfc as (out2 & Hout2 & Herr2).
    rewrite Hr1 in Herr1. rewrite Hr2 in Herr2.
    specialize (Herr1 e1 eq_refl). specialize (Herr2 e2 eq_refl).
    split; [exists out1 | exists out2]; repeat split; try assumption.
    + exact (contains_of_starts_with "Error" "Error: " _ eq_refl Herr1).
    + exact (contains_of_starts_with "Error" "Error: " _ eq_refl Herr2).
  - intros resp Hc Hup Hs.
    assert (Hrun : OpenMeteoClient.get_current_weather _client latitude longitude up h
                   = (throw (HTTPStatusError (resp_status resp)
                               (http_status_msg (resp_status resp))),
                      (h ++ [current_request _client latitude longitude])%list)).
    { rewrite (get_current_weather_run _ _ _ _ _ Hc), Hup.
      rewrite (read_answer_bad_status _ Hs). reflexivity. }
    rewrite (get_current_weather_recovers _ _ _ _ _ _ Hrun). reflexivity.
  - intros resp Hc Hd Hup Hs.
    assert (Hrun : OpenMeteoClient.get_forecast _client latitude longitude days up h
                   = (throw (HTTPStatusError (resp_status resp)
                               (http_status_msg (resp_status resp))),
                      (h ++ [forecast_request _client latitude longitude days])%list)).
    { rewrite (get_forecast_run _ _ _ _ _ _ Hc Hd), Hup.
      rewrite (read_answer_bad_status _ Hs). reflexivity. }
    rewrite (get_forecast_recovers _ _ _ _ _ _ _ Hrun). reflexivity.
Qed.

Lemma handlers_never_raise_witness :
  fst (get_current_weather (H := sample_runtime) 52.52 13.41 (always 503 None) [])
  = ok "Error: Failed to fetch weather data – 503".
Proof.
  destruct (handlers_never_raise (H := sample_runtime) 52.52 13.41 7
              (always 503 None) [])
    as (_ & _ & _ & Hstatus & _).
  exact (Hstatus (mk_response 503 None) eq_refl eq_refl eq_refl).
Defined.

(** ** Upstream errors *)

(** C7: for inputs that pass validation, when the answer to the request
    has a 2xx status and its JSON body is an object whose ["error"] entry
    is true, both client methods raise [RuntimeError]; its message is
    "Open-Meteo API error: " followed by the reason of the envelope
    ("unknown" when there is none), and no weather record is returned.
    When the answer has any other status, both methods raise the
    HTTP-status error of that status instead, whatever the body holds, an
    error envelope included: the status is checked before the body is
    read.  In both cases the one request has been sent. *)
Theorem error_envelope_raises `{PyRuntime}
    (self : OpenMeteoClient.t) (latitude longitude : float) (days : Z)
    (up : upstream) (h : list request) :
  coordinates_ok latitude longitude = true ->
  (forall (status : Z) (body : gmap string json) (flag : json),
     200 <= status <= 299 ->
     body !! "error" = Some flag ->
     py_bool flag = true ->
     (up h (current_request self latitude longitude)
      = ok (mk_response status (Some (JObj body))) ->
      OpenMeteoClient.get_current_weather self latitude longitude up h
      = (throw (Raised RuntimeError
                  ("Open-Meteo API error: " ++ py_str (envelope_reason body))),
         (h ++ [current_request self latitude longitude])%list))
     /\ (days_ok days = true ->
         up h (forecast_request self latitude longitude days)
         = ok (mk_response status (Some (JObj body))) ->
         OpenMeteoClient.get_forecast self latitude longitude days up h
         = (throw (Raised RuntimeError
                     ("Open-Meteo API error: " ++ py_str (envelope_reason body))),
            (h ++ [forecast_request self latitude longitude days])%list))
     /\ contains (py_str (envelope_reason body))
          ("Open-Meteo API error: " ++ py_str (envelope_reason body)))
  /\ (forall (status : Z) (answer : option json),
        ~ (200 <= status <= 299) ->
        (up h (current_request self latitude longitude)
         = ok (mk_response status answer) ->
         OpenMeteoClient.get_current_weather self latitude longitude up h
         = (throw (HTTPStatusError status (http_status_msg status)),
            (h ++ [current_request self latitude longitude])%list))
        /\ (days_ok days = true ->
            up h (forecast_request self latitude longitude days)
            = ok (mk_response status answer) ->
            OpenMeteoClient.get_forecast self latitude longitude days up h
            = (throw (HTTPStatusError status (http_status_msg status)),
               (h ++ [forecast_request self latitude longitude days])%list))).
Proof.
  intros Hc. split.
  - intros status body flag Hstatus Hflag Htrue.
    assert (Hread : read_answer (ok (mk_response status (Some (JObj body))))
                    = throw (Raised RuntimeError
                               ("Open-Meteo API error: "
                                ++ py_str (envelope_reason body)))).
    { apply (read_answer_envelope _ body flag); try assumption; try reflexivity.
      unfold httpx.is_success. cbn [resp_status]. lia. }
    split; [| split].
    + intros Hup. rewrite (get_current_weather_run _ _ _ _ _ Hc), Hup, Hread.
      reflexivity.
    + intros Hd Hup. rewrite (get_forecast_run _ _ _ _ _ _ Hc Hd), Hup, Hread.
      reflexivity.
    + find_substring.
  - intros status answer Hstatus.
    assert (Hread : read_answer (ok (mk_response status answer))
                    = throw (HTTPStatusError status (http_status_msg status))).
    { apply (read_answer_bad_status (mk_response status answer)).
      unfold httpx.is_success. cbn [resp_status]. lia. }
    split.
    + intros Hup. rewrite (get_current_weather_run _ _ _ _ _ Hc), Hup, Hread.
      reflexivity.
    + intros Hd Hup. rewrite (get_forecast_run _ _ _ _ _ _ Hc Hd), Hup, Hread.
      reflexivity.
Qed.

Lemma error_envelope_raises_witness :
  OpenMeteoClient.get_current_weather (H := sample_runtime) _client 52.52 13.41
    (always 200 (Some ERROR_ENVELOPE)) []
  = (throw (Raised RuntimeError ("Open-Meteo API error: " ++ ERROR_REASON)),
     [current_request _client 52.52 13.41])
  /\ OpenMeteoClient.get_forecast (H := sample_runtime) _client 52.52 13.41 7
       (always 429 (Some ERROR_ENVELOPE)) []
     = (throw (HTTPStatusError 429 "<status>"),
        [forecast_request _client 52.52 13.41 7]).
Proof.
  split.
  - destruct (error_envelope_raises (H := sample_runtime) _client 52.52 13.41 7
                (always 200 (Some ERROR_ENVELOPE)) [] eq_refl)
      as (Hsuccess & _).
    destruct (Hsuccess 200 ERROR_BODY (JBool true)) as (Hcurrent & _).
    + lia.
    + vm_compute. reflexivity.
    + reflexivity.
    + exact (Hcurrent eq_refl).
  - destruct (error_envelope_raises (H := sample_runtime) _client 52.52 13.41 7
                (always 429 (Some ERROR_ENVELOPE)) [] eq_refl)
      as (_ & Hfailure).
    destruct (Hfailure 429 (Some ERROR_ENVELOPE)) as (_ & Hforecast).
    + lia.
    + exact (Hforecast eq_refl eq_refl).
Defined.

(** C7, as stated, fails: the same envelope sent with status 429 makes both
    client methods raise the HTTP-status error, not the upstream error. *)
Lemma error_envelope_behind_bad_status :
  ~ (forall (R : PyRuntime) self latitude longitude days up h status body reason,
       coordinates_ok latitude longitude = true ->
       days_ok days = true ->
       (forall h0 req, up h0 req = ok (mk_response status (Some (JObj body)))) ->
       body !! "error" = Some (JBool true) ->
       body !! "reason" = Some (JStr reason) ->
       (exists msg,
          fst (OpenMeteoClient.get_current_weather self latitude longitude up h)
          = throw (Raised RuntimeError msg))
       /\ (exists msg,
             fst (OpenMeteoClient.get_forecast self latitude longitude days up h)
             = throw (Raised RuntimeError msg))).
Proof.
  intros Hclaim.
  destruct (Hclaim sample_runtime _client 52.52%float 13.41%float 7
              (always 429 (Some ERROR_ENVELOPE)) [] 429 ERROR_BODY ERROR_REASON)
    as [[msg Hcurrent] _].
  - reflexivity.
  - reflexivity.
  - intros h0 req. reflexivity.
  - vm_compute. reflexivity.
  - vm_compute. reflexivity.
  - vm_compute in Hcurrent. discriminate Hcurrent.
Qed.

(** ** Requests *)

(** C8: an invocation of a handler sends one GET request to the forecast
    endpoint, with the client's timeout of 10 seconds, when its inputs pass
    validation, and sends nothing otherwise.  What is sent does not depend
    on the upstream's answers: a request that fails is not sent again, and
    [MAX_RETRIES] and [RETRY_BACKOFF] play no part. *)
Theorem at_most_one_request `{PyRuntime}
    (latitude longitude : float) (days : Z) (up : upstream) (h : list request) :
  snd (get_current_weather latitude longitude up h)
  = (if coordinates_ok latitude longitude
     then h ++ [current_request _client latitude longitude] else h)%list
  /\ snd (get_forecast latitude longitude days up h)
     = (if coordinates_ok latitude longitude && days_ok days
        then h ++ [forecast_request _client latitude longitude days] else h)%list
  /\ req_method (current_request _client latitude longitude) = "GET"
  /\ req_url (current_request _client latitude longitude) = OPEN_METEO_BASE
  /\ req_timeout (current_request _client latitude longitude) = 10%float
  /\ req_method (forecast_request _client latitude longitude days) = "GET"
  /\ req_url (forecast_request _client latitude longitude days) = OPEN_METEO_BASE
  /\ req_timeout (forecast_request _client latitude longitude days) = 10%float.
Proof.
  split; [| split; [| repeat split]].
  - destruct (OpenMeteoClient.get_current_weather _client latitude longitude up h)
      as [[e | weather] h'] eqn:Hrun.
    + rewrite (get_current_weather_recovers _ _ _ _ _ _ Hrun). cbn [snd].
      destruct (coordinates_ok latitude longitude) eqn:Hc.
      * rewrite (get_current_weather_run _ _ _ _ _ Hc) in Hrun. congruence.
      * destruct (get_current_weather_rejected _client _ _ up h Hc) as [msg Hr].
        congruence.
    + rewrite (get_current_weather_formats _ _ _ _ _ _ Hrun). cbn [snd].
      destruct (coordinates_ok latitude longitude) eqn:Hc.
      * rewrite (get_current_weather_run _ _ _ _ _ Hc) in Hrun. congruence.
      * destruct (get_current_weather_rejected _client _ _ up h Hc) as [msg Hr].
        unfold throw, ok in *. congruence.
  - destruct (OpenMeteoClient.get_forecast _client latitude longitude days up h)
      as [[e | forecast] h'] eqn:Hrun.
    + rewrite (get_forecast_recovers _ _ _ _ _ _ _ Hrun). cbn [snd].
      destruct (coordinates_ok latitude longitude && days_ok days) eqn:Hv.
      * apply andb_true_iff in Hv as [Hc Hd].
        rewrite (get_forecast_run _ _ _ _ _ _ Hc Hd) in Hrun. congruence.
      * destruct (get_forecast_rejected _client _ _ _ up h Hv) as [msg Hr].
        congruence.
    + rewrite (get_forecast_formats _ _ _ _ _ _ _ Hrun). cbn [snd].
      destruct (coordinates_ok latitude longitude && days_ok days) eqn:Hv.
      * apply andb_true_iff in Hv as [Hc Hd].
        rewrite (get_forecast_run _ _ _ _ _ _ Hc Hd) in Hrun. congruence.
      * destruct (get_forecast_rejected _client _ _ _ up h Hv) as [msg Hr].
        unfold throw, ok in *. congruence.
Qed.

(** C8, as stated, fails: called with latitude 100, the handler returns
    its error string without having sent any request. *)
Lemma no_request_for_invalid_input :
  ~ (forall (R : PyRuntime) latitude longitude up,
       length (snd (get_current_weather latitude longitude up [])) = 1%nat).
Proof.
  intros Hclaim.
  specialize (Hclaim sample_runtime 100%float 0%float (always 200 None)).
  vm_compute in Hclaim. discriminate Hclaim.
Qed.

(** * Further properties of the module *)

(** ** Current weather *)

Section CurrentRuns.
Context `{PyRuntime}.
Import OpenMeteoClient.

Lemma parse_current_ok_iff (data : json) (current : gmap string json)
    (w : CurrentWeather.t) :
  py_getitem data "current" = ok (JObj current) ->
  parse_current data = ok w <-> current_from current w.
Proof.
  intros Hcur. unfold parse_current, current_from, mbind, result_bind.
  rewrite Hcur. unfold py_getitem, raise_fault, throw, ok. cbv beta iota. split.
  - destruct (current !! "weather_code") as [c |] eqn:Hc; cbv beta iota;
      [| intros [=]].
    destruct (py_int c) as [e | code] eqn:Hcode; cbv beta iota; [intros [=] |].
    destruct (current !! "temperature_2m") as [t |] eqn:Ht; cbv beta iota;
      [| intros [=]].
    destruct (py_float t) as [e | temp] eqn:Htemp; cbv beta iota; [intros [=] |].
    destruct (current !! "wind_speed_10m") as [ws |] eqn:Hws; cbv beta iota;
      [| intros [=]].
    destruct (py_float ws) as [e | wind] eqn:Hwind; cbv beta iota; [intros [=] |].
    destruct (weather_code_to_conditions code) as [e | cond] eqn:Hcond;
      cbv beta iota; [intros [=] |].
    destruct (current !! "time") as [tm |] eqn:Htm; cbv beta iota; [| intros [=]].
    destruct (py_datetime_fromisoformat tm) as [e | parsed] eqn:Hparsed;
      cbv beta iota; [intros [=] |].
    intros [= <-]. exists c, t, ws, tm, parsed.
    cbn [CurrentWeather.temperature CurrentWeather.wind_speed
         CurrentWeather.weather_code CurrentWeather.conditions
         CurrentWeather.timestamp].
    repeat split; assumption.
  - intros (c & t & ws & tm & parsed & -> & -> & -> & -> & Hcode & Htemp & Hwind
            & Hparsed & Hts & Hcond).
    cbv beta iota. rewrite Hcode, Htemp, Hwind. cbv beta iota.
    rewrite Hcond, Hparsed.
    destruct w as [temp wind code cond stamp].
    cbn [CurrentWeather.timestamp] in Hts. rewrite Hts. reflexivity.
Qed.

Lemma get_current_weather_ok_iff (self : t) (latitude longitude : float)
    (up : upstream) (h h' : list request) (w : CurrentWeather.t) :
  get_current_weather self latitude longitude up h = (ok w, h') <->
  coordinates_ok latitude longitude = true
  /\ h' = (h ++ [current_request self latitude longitude])%list
  /\ exists data,
       read_answer (up h (current_request self latitude longitude)) = ok data
       /\ parse_current data = ok w.
Proof.
  destruct (coordinates_ok latitude longitude) eqn:Hc.
  - rewrite (get_current_weather_run _ _ _ _ _ Hc).
    unfold mbind, result_bind. split.
    + destruct (read_answer _) as [e | data]; [discriminate |].
      intros [= Hp <-]. repeat split.
      exists data. split; [reflexivity | exact Hp].
    + intros (_ & -> & data & -> & Hp). unfold ok in *. congruence.
  - destruct (get_current_weather_rejected self _ _ up h Hc) as [msg ->]. split.
    + discriminate.
    + intros (Hfalse & _). discriminate Hfalse.
Qed.
End CurrentRuns.

(** X1: when the answer to the current-weather request passes [_get] and
    its body has a ["current"] object, the client method succeeds exactly
    when the coordinates are valid and the four fields are present and
    convert.  The record then carries the converted values and the
    condition string of its code; its timestamp keeps the parsed date and
    clock fields and has its time zone set to UTC, whatever offset the
    parsed value had. *)
Theorem current_weather_maps_fields `{PyRuntime}
    (self : OpenMeteoClient.t) (latitude longitude : float)
    (up : upstream) (h : list request) (data : json) (current : gmap string json) :
  read_answer (up h (current_request self latitude longitude)) = ok data ->
  py_getitem data "current" = ok (JObj current) ->
  (forall w h',
     OpenMeteoClient.get_current_weather self latitude longitude up h = (ok w, h')
     <-> coordinates_ok latitude longitude = true
         /\ h' = (h ++ [current_request self latitude longitude])%list
         /\ current_from current w)
  /\ (forall w h',
        OpenMeteoClient.get_current_weather self latitude longitude up h
        = (ok w, h') ->
        dt_tzinfo (CurrentWeather.timestamp w) = Some UTC
        /\ exists tm parsed,
             current !! "time" = Some tm
             /\ py_datetime_fromisoformat tm = ok parsed
             /\ dt_date (CurrentWeather.timestamp w) = dt_date parsed
             /\ hour (CurrentWeather.timestamp w) = hour parsed
             /\ minute (CurrentWeather.timestamp w) = minute parsed
             /\ second (CurrentWeather.timestamp w) = second parsed
             /\ microsecond (CurrentWeather.timestamp w) = microsecond parsed).
Proof.
  intros Hdata Hcur.
  assert (Hiff : forall w h',
     OpenMeteoClient.get_current_weather self latitude longitude up h = (ok w, h')
     <-> coordinates_ok latitude longitude = true
         /\ h' = (h ++ [current_request self latitude longitude])%list
         /\ current_from current w).
  { intros w h'. rewrite get_current_weather_ok_iff. split.
    - intros (Hc & Hh & data' & Hdata' & Hparse).
      assert (data' = data) as -> by (unfold ok in *; congruence).
      repeat split; try assumption.
      apply (parse_current_ok_iff data current w Hcur). exact Hparse.
    - intros (Hc & Hh & Hfrom). repeat split; try assumption.
      exists data. split; [assumption |].
      apply (parse_current_ok_iff data current w Hcur). exact Hfrom. }
  split; [exact Hiff |].
  intros w h' Hrun.
  destruct (proj1 (Hiff w h') Hrun)
    as (_ & _ & c & t & ws & tm & parsed & _ & _ & _ & Htm & _ & _ & _ & Hp & Hts & _).
  rewrite Hts. split; [reflexivity |].
  exists tm, parsed. repeat split; assumption.
Qed.

Lemma current_weather_maps_fields_witness :
  exists w h',
    OpenMeteoClient.get_current_weather (H := sample_runtime) _client 52.52 13.41
      (always 200 (Some CURRENT_WEATHER_RESPONSE)) [] = (ok w, h')
    /\ dt_tzinfo (CurrentWeather.timestamp w) = Some UTC.
Proof.
  pose (run := OpenMeteoClient.get_current_weather (H := sample_runtime) _client
                 52.52 13.41 (always 200 (Some CURRENT_WEATHER_RESPONSE)) []).
  assert (Hok : exists w h', run = (ok w, h')).
  { vm_compute. do 2 eexists. reflexivity. }
  destruct Hok as (w & h' & Heq). unfold run in Heq.
  exists w, h'. split; [exact Heq |].
  destruct (current_weather_maps_fields (H := sample_runtime) _client 52.52 13.41
              (always 200 (Some CURRENT_WEATHER_RESPONSE)) []
              CURRENT_WEATHER_RESPONSE CURRENT_FIELDS)
    as (_ & Hstamp).
  - vm_compute. reflexivity.
  - vm_compute. reflexivity.
  - destruct (Hstamp w h' Heq) as [Hutc _]. exact Hutc.
Defined.

(** ** Success and failure texts *)

Section Texts.
Context `{PyRuntime}.

Lemma format_current_not_error (latitude longitude : float)
    (weather : CurrentWeather.t) :
  String.prefix "Error: " (format_current latitude longitude weather) = false.
Proof. reflexivity. Qed.

Lemma format_forecast_not_error (latitude longitude : float) (days : Z)
    (forecast : ForecastResponse.t) :
  String.prefix "Error: " (format_forecast latitude longitude days forecast) = false.
Proof.
  rewrite format_forecast_lines.
  destruct (map forecast_line (ForecastResponse.forecasts forecast));
    reflexivity.
Qed.
End Texts.

(** X2: the text a handler returns begins with "Error: " exactly when the
    client call raised; the text of a successful call never does. *)
Theorem error_prefix_marks_failure `{PyRuntime}
    (latitude longitude : float) (days : Z) (up : upstream) (h : list request) :
  (exists out,
     fst (get_current_weather latitude longitude up h) = ok out
     /\ (starts_with "Error: " out <->
         exists e,
           fst (OpenMeteoClient.get_current_weather _client latitude longitude up h)
           = throw e))
  /\ (exists out,
        fst (get_forecast latitude longitude days up h) = ok out
        /\ (starts_with "Error: " out <->
            exists e,
              fst (OpenMeteoClient.get_forecast _client latitude longitude days up h)
              = throw e)).
Proof.
  split.
  - destruct (OpenMeteoClient.get_current_weather _client latitude longitude up h)
      as [[e | weather] h'] eqn:Hrun.
    + rewrite (get_current_weather_recovers _ _ _ _ _ _ Hrun).
      eexists. split; [reflexivity |]. split; [eauto |]. intros _.
      apply (recovered_starts_with_Error e "Failed to fetch weather data – ").
    + rewrite (get_current_weather_formats _ _ _ _ _ _ Hrun).
      eexists. split; [reflexivity |]. unfold starts_with.
      rewrite format_current_not_error. split; [discriminate |].
      intros [e [=]].
  - destruct (OpenMeteoClient.get_forecast _client latitude longitude days up h)
      as [[e | forecast] h'] eqn:Hrun.
    + rewrite (get_forecast_recovers _ _ _ _ _ _ _ Hrun).
      eexists. split; [reflexivity |]. split; [eauto |]. intros _.
      apply (recovered_starts_with_Error e "Failed to fetch forecast – ").
    + rewrite (get_forecast_formats _ _ _ _ _ _ _ Hrun).
      eexists. split; [reflexivity |]. unfold starts_with.
      rewrite format_forecast_not_error. split; [discriminate |].
      intros [e [=]].
Qed.

(** X3: when the client call succeeds, the text of [get_current_weather]
    begins with "Current weather at (" and embeds the temperature, the
    wind speed, the condition string, the weather code and the timestamp
    of the record, as the runtime renders them. *)
Theorem current_weather_text_embeds_fields `{PyRuntime}
    (latitude longitude : float) (up : upstream) (h h' : list request)
    (weather : CurrentWeather.t) :
  OpenMeteoClient.get_current_weather _client latitude longitude up h
  = (ok weather, h') ->
  exists out,
    get_current_weather latitude longitude up h = (ok out, h')
    /\ starts_with "Current weather at (" out
    /\ contains (float_repr (CurrentWeather.temperature weather)) out
    /\ contains (float_repr (CurrentWeather.wind_speed weather)) out
    /\ contains (CurrentWeather.conditions weather) out
    /\ contains (str_int (CurrentWeather.weather_code weather)) out
    /\ contains (datetime_isoformat (CurrentWeather.timestamp weather)) out.
Proof.
  intros Hrun. rewrite (get_current_weather_formats _ _ _ _ _ _ Hrun).
  eexists. split; [reflexivity |]. unfold format_current.
  split; [apply prefix_append |].
  repeat split; find_substring.
Qed.

Lemma current_weather_text_embeds_fields_witness :
  exists out,
    get_current_weather (H := sample_runtime) 52.52 13.41
      (always 200 (Some CURRENT_WEATHER_RESPONSE)) []
    = (ok out, [current_request _client 52.52 13.41])
    /\ contains "Partly cloudy" out.
Proof.
  pose (run := OpenMeteoClient.get_current_weather (H := sample_runtime) _client
                 52.52 13.41 (always 200 (Some CURRENT_WEATHER_RESPONSE)) []).
  assert (Hok : exists w,
             run = (ok w, [current_request _client 52.52 13.41])
             /\ CurrentWeather.conditions w = "Partly cloudy").
  { vm_compute. eexists. split; reflexivity. }
  destruct Hok as (w & Heq & Hcond). unfold run in Heq.
  destruct (current_weather_text_embeds_fields (H := sample_runtime) _ _ _ _ _ _ Heq)
    as (out & Hout & _ & _ & _ & Hc & _).
  exists out. split; [exact Hout |]. rewrite <- Hcond. exact Hc.
Defined.

(** ** What [_get] lets through *)

Section Failures.
Context `{PyRuntime}.

Lemma read_answer_object (resp : response) (body : gmap string json) :
  resp_json resp = Some (JObj body) ->
  read_answer (ok resp)
  = if httpx.is_success resp then
      match body !! "error" with
      | Some flag =>
          if py_bool flag then
            throw (Raised RuntimeError
                     ("Open-Meteo API error: " ++ py_str (envelope_reason body)))
          else ok (JObj body)
      | None => ok (JObj body)
      end
    else throw (HTTPStatusError (resp_status resp)
                                (http_status_msg (resp_status resp))).
Proof.
  intros Hbody. destruct (httpx.is_success resp) eqn:Hs.
  - destruct (body !! "error") as [flag |] eqn:Hflag.
    + destruct (py_bool flag) eqn:Htrue.
      * exact (read_answer_envelope resp body flag Hs Hbody Hflag Htrue).
      * unfold read_answer, httpx.raise_for_status, httpx.json_of, mbind,
          result_bind, ok.
        rewrite Hs, Hbody. cbn [py_in py_getitem]. unfold ok.
        rewrite Hflag, Htrue.
        rewrite bool_decide_eq_true_2 by (eexists; reflexivity). reflexivity.
    + unfold read_answer, httpx.raise_for_status, httpx.json_of, mbind,
        result_bind, ok.
      rewrite Hs, Hbody. cbn [py_in]. unfold ok.
      rewrite bool_decide_eq_false_2; [reflexivity |].
      rewrite Hflag. intros [x [=]].
  - exact (read_answer_bad_status resp Hs).
Qed.


(** The handlers on a request that was sent and did not yield a body. *)
Lemma get_current_weather_after_failure (latitude longitude : float)
    (up : upstream) (h : list request) (e : exn) :
  coordinates_ok latitude longitude = true ->
  read_answer (up h (current_request _client latitude longitude)) = throw e ->
  OpenMeteoClient.get_current_weather _client latitude longitude up h
  = (throw e, (h ++ [current_request _client latitude longitude])%list).
Proof.
  intros Hc He. rewrite (get_current_weather_run _ _ _ _ _ Hc), He. reflexivity.
Qed.

Lemma get_forecast_after_failure (latitude longitude : float) (days : Z)
    (up : upstream) (h : list request) (e : exn) :
  coordinates_ok latitude longitude = true ->
  days_ok days = true ->
  read_answer (up h (forecast_request _client latitude longitude days)) = throw e ->
  OpenMeteoClient.get_forecast _client latitude longitude days up h
  = (throw e, (h ++ [forecast_request _client latitude longitude days])%list).
Proof.
  intros Hc Hd He. rewrite (get_forecast_run _ _ _ _ _ _ Hc Hd), He. reflexivity.
Qed.
End Failures.

(** X4: for an answer whose body is a JSON object, [_get] returns that
    object unchanged exactly when the status is 2xx and the object has no
    ["error"] entry or a false one (false, 0, null, empty); otherwise it
    raises, and in every case it has sent exactly its one request. *)
Theorem _get_returns_body `{PyRuntime}
    (self : OpenMeteoClient.t) (params : list (string * param))
    (up : upstream) (h : list request) (status : Z) (body : gmap string json) :
  up h (request_of self params) = ok (mk_response status (Some (JObj body))) ->
  (OpenMeteoClient._get self params up h
   = (ok (JObj body), (h ++ [request_of self params])%list)
   <-> 200 <= status <= 299
       /\ forall flag, body !! "error" = Some flag -> py_bool flag = false)
  /\ snd (OpenMeteoClient._get self params up h)
     = (h ++ [request_of self params])%list.
Proof.
  intros Hup. rewrite _get_run. fold (request_of self params). rewrite Hup.
  rewrite (read_answer_object (mk_response status (Some (JObj body))) body eq_refl).
  unfold httpx.is_success. cbn [resp_status snd]. split; [| reflexivity].
  destruct ((200 <=? status) && (status <=? 299)) eqn:Hs.
  - assert (200 <= status <= 299) by lia.
    destruct (body !! "error") as [flag |] eqn:Hflag.
    + destruct (py_bool flag) eqn:Htrue.
      * split; [intros [=] |].
        intros [_ Hfalse]. specialize (Hfalse flag eq_refl). congruence.
      * split; [| reflexivity]. intros _. split; [assumption |].
        intros flag' [= <-]. exact Htrue.
    + split; [| reflexivity]. intros _. split; [assumption |]. intros flag' [=].
  - split; [intros [=] |]. intros [Hrange _]. lia.
Qed.

Lemma _get_returns_body_witness :
  OpenMeteoClient._get (H := sample_runtime) _client [] (always 200 (Some (JObj ∅))) []
  = (ok (JObj ∅), [request_of _client []]).
Proof.
  destruct (_get_returns_body (H := sample_runtime) _client []
              (always 200 (Some (JObj ∅))) [] 200 ∅ eq_refl)
    as [Hiff _].
  apply Hiff. split; [lia |]. intros flag Hflag.
  rewrite lookup_empty in Hflag. discriminate Hflag.
Defined.



(** X6: for valid inputs, when the body that [_get] returns is an object
    without the key the method reads (["current"], or ["daily"]), the
    client method raises [KeyError] after its one request, and the handler
    reports it as an unexpected error. *)
Theorem missing_section_is_unexpected `{PyRuntime}
    (latitude longitude : float) (days : Z) (up : upstream) (h : list request)
    (body : gmap string json) :
  coordinates_ok latitude longitude = true ->
  (read_answer (up h (current_request _client latitude longitude)) = ok (JObj body) ->
   body !! "current" = None ->
   OpenMeteoClient.get_current_weather _client latitude longitude up h
   = (throw (Raised KeyError (fault_msg (MissingKey "current"))),
      (h ++ [current_request _client latitude longitude])%list)
   /\ get_current_weather latitude longitude up h
      = (ok ("Error: An unexpected error occurred – "
             ++ fault_msg (MissingKey "current")),
         (h ++ [current_request _client latitude longitude])%list))
  /\ (days_ok days = true ->
      read_answer (up h (forecast_request _client latitude longitude days))
      = ok (JObj body) ->
      body !! "daily" = None ->
      OpenMeteoClient.get_forecast _client latitude longitude days up h
      = (throw (Raised KeyError (fault_msg (MissingKey "daily"))),
         (h ++ [forecast_request _client latitude longitude days])%list)
      /\ get_forecast latitude longitude days up h
         = (ok ("Error: An unexpected error occurred – "
                ++ fault_msg (MissingKey "daily")),
            (h ++ [forecast_request _client latitude longitude days])%list)).
Proof.
  intros Hc. split.
  - intros Hread Hmiss.
    assert (Hrun :
      OpenMeteoClient.get_current_weather _client latitude longitude up h
      = (throw (Raised KeyError (fault_msg (MissingKey "current"))),
         (h ++ [current_request _client latitude longitude])%list)).
    { rewrite (get_current_weather_run _ _ _ _ _ Hc), Hread.
      unfold OpenMeteoClient.parse_current, mbind, result_bind, ok, py_getitem.
      rewrite Hmiss. reflexivity. }
    split; [exact Hrun |].
    rewrite (get_current_weather_recovers _ _ _ _ _ _ Hrun). reflexivity.
  - intros Hd Hread Hmiss.
    assert (Hrun :
      OpenMeteoClient.get_forecast _client latitude longitude days up h
      = (throw (Raised KeyError (fault_msg (MissingKey "daily"))),
         (h ++ [forecast_request _client latitude longitude days])%list)).
    { rewrite (get_forecast_run _ _ _ _ _ _ Hc Hd), Hread.
      unfold OpenMeteoClient.parse_forecast, mbind, result_bind, ok, py_getitem.
      rewrite Hmiss. reflexivity. }
    split; [exact Hrun |].
    rewrite (get_forecast_recovers _ _ _ _ _ _ _ Hrun). reflexivity.
Qed.

Lemma missing_section_is_unexpected_witness :
  get_forecast (H := sample_runtime) 52.52 13.41 3
    (always 200 (Some CURRENT_WEATHER_RESPONSE)) []
  = (ok "Error: An unexpected error occurred – <fault>",
     [forecast_request _client 52.52 13.41 3]).
Proof.
  destruct (missing_section_is_unexpected (H := sample_runtime) 52.52 13.41 3
              (always 200 (Some CURRENT_WEATHER_RESPONSE)) []
              {[ "current" := JObj CURRENT_FIELDS ]})
    as [_ Hforecast].
  - reflexivity.
  - destruct Hforecast as [_ Htext].
    + reflexivity.
    + vm_compute. reflexivity.
    + vm_compute. reflexivity.
    + exact Htext.
Defined.

(** X7: for valid inputs, an exception raised by the transport itself
    (connection failure, timeout) leaves both client methods unchanged,
    after the one request; when it is neither a [ValueError] nor an
    HTTP-status error the handlers report it as an unexpected error
    followed by its message. *)
Theorem transport_failure_propagates `{PyRuntime}
    (latitude longitude : float) (days : Z) (up : upstream) (h : list request)
    (e : exn) :
  coordinates_ok latitude longitude = true ->
  (up h (current_request _client latitude longitude) = throw e ->
   OpenMeteoClient.get_current_weather _client latitude longitude up h
   = (throw e, (h ++ [current_request _client latitude longitude])%list)
   /\ (isinstance_ValueError e = false ->
       isinstance_HTTPStatusError e = false ->
       get_current_weather latitude longitude up h
       = (ok ("Error: An unexpected error occurred – " ++ str_exn e),
          (h ++ [current_request _client latitude longitude])%list)))
  /\ (days_ok days = true ->
      up h (forecast_request _client latitude longitude days) = throw e ->
      OpenMeteoClient.get_forecast _client latitude longitude days up h
      = (throw e, (h ++ [forecast_request _client latitude longitude days])%list)
      /\ (isinstance_ValueError e = false ->
          isinstance_HTTPStatusError e = false ->
          get_forecast latitude longitude days up h
          = (ok ("Error: An unexpected error occurred – " ++ str_exn e),
             (h ++ [forecast_request _client latitude longitude days])%list))).
Proof.
  intros Hc. split.
  - intros Hup.
    assert (Hrun := get_current_weather_after_failure latitude longitude up h e Hc).
    rewrite Hup in Hrun. specialize (Hrun eq_refl).
    split; [exact Hrun |]. intros Hv Hs.
    rewrite (get_current_weather_recovers _ _ _ _ _ _ Hrun).
    destruct e as [c msg | code msg]; cbn in Hv, Hs; [| discriminate].
    rewrite Hv. reflexivity.
  - intros Hd Hup.
    assert (Hrun := get_forecast_after_failure latitude longitude days up h e Hc Hd).
    rewrite Hup in Hrun. specialize (Hrun eq_refl).
    split; [exact Hrun |]. intros Hv Hs.
    rewrite (get_forecast_recovers _ _ _ _ _ _ _ Hrun).
    destruct e as [c msg | code msg]; cbn in Hv, Hs; [| discriminate].
    rewrite Hv. reflexivity.
Qed.

Lemma transport_failure_propagates_witness :
  get_current_weather (H := sample_runtime) 52.52 13.41
    (failing (Raised TransportError "timed out")) []
  = (ok "Error: An unexpected error occurred – timed out",
     [current_request _client 52.52 13.41]).
Proof.
  destruct (transport_failure_propagates (H := sample_runtime) 52.52 13.41 7
              (failing (Raised TransportError "timed out")) []
              (Raised TransportError "timed out"))
    as [Hcurrent _].
  - reflexivity.
  - destruct (Hcurrent eq_refl) as [_ Htext].
    exact (Htext eq_refl eq_refl).
Defined.

(** X8: for valid inputs, a 2xx answer whose body is an object with a true
    ["error"] entry is reported by the handlers as an unexpected error:
    the text is "Error: An unexpected error occurred – Open-Meteo API
    error: " followed by the reason ("unknown" when there is none). *)
Theorem api_error_text `{PyRuntime}
    (latitude longitude : float) (days : Z) (up : upstream) (h : list request)
    (status : Z) (body : gmap string json) (flag : json) :
  coordinates_ok latitude longitude = true ->
  200 <= status <= 299 ->
  body !! "error" = Some flag ->
  py_bool flag = true ->
  (up h (current_request _client latitude longitude)
   = ok (mk_response status (Some (JObj body))) ->
   get_current_weather latitude longitude up h
   = (ok ("Error: An unexpected error occurred – Open-Meteo API error: "
          ++ py_str (envelope_reason body)),
      (h ++ [current_request _client latitude longitude])%list))
  /\ (days_ok days = true ->
      up h (forecast_request _client latitude longitude days)
      = ok (mk_response status (Some (JObj body))) ->
      get_forecast latitude longitude days up h
      = (ok ("Error: An unexpected error occurred – Open-Meteo API error: "
             ++ py_str (envelope_reason body)),
         (h ++ [forecast_request _client latitude longitude days])%list)).
Proof.
  intros Hc Hs Hflag Htrue.
  assert (Hread : read_answer (ok (mk_response status (Some (JObj body))))
                  = throw (Raised RuntimeError
                             ("Open-Meteo API error: "
                              ++ py_str (envelope_reason body)))).
  { apply (read_answer_envelope _ body flag); try assumption; try reflexivity.
    unfold httpx.is_success. cbn [resp_status]. lia. }
  split.
  - intros Hup.
    assert (Hrun := get_current_weather_after_failure latitude longitude up h
                      (Raised RuntimeError
                         ("Open-Meteo API error: " ++ py_str (envelope_reason body)))
                      Hc).
    rewrite Hup in Hrun. specialize (Hrun Hread).
    rewrite (get_current_weather_recovers _ _ _ _ _ _ Hrun). reflexivity.
  - intros Hd Hup.
    assert (Hrun := get_forecast_after_failure latitude longitude days up h
                      (Raised RuntimeError
                         ("Open-Meteo API error: " ++ py_str (envelope_reason body)))
                      Hc Hd).
    rewrite Hup in Hrun. specialize (Hrun Hread).
    rewrite (get_forecast_recovers _ _ _ _ _ _ _ Hrun). reflexivity.
Qed.

Lemma api_error_text_witness :
  get_current_weather (H := sample_runtime) 52.52 13.41
    (always 200 (Some ERROR_ENVELOPE)) []
  = (ok ("Error: An unexpected error occurred – Open-Meteo API error: "
         ++ ERROR_REASON),
     [current_request _client 52.52 13.41]).
Proof.
  destruct (api_error_text (H := sample_runtime) 52.52 13.41 7
              (always 200 (Some ERROR_ENVELOPE)) [] 200 ERROR_BODY (JBool true))
    as [Hcurrent _].
  - reflexivity.
  - lia.
  - vm_compute. reflexivity.
  - reflexivity.
  - exact (Hcurrent eq_refl).
Defined.

(** ** Edges of the forecast loop *)

Section LoopEdges.
Context `{PyRuntime}.
Import OpenMeteoClient.

Lemma get_forecast_arrays_iff (self : t) (latitude longitude : float) (days : Z)
    (up : upstream) (h h' : list request) (data : json) (daily : gmap string json)
    (times maxs mins precs codes : list json) (resp : ForecastResponse.t) :
  read_answer (up h (forecast_request self latitude longitude days)) = ok data ->
  py_getitem data "daily" = ok (JObj daily) ->
  daily_arrays daily times maxs mins precs codes ->
  get_forecast self latitude longitude days up h = (ok resp, h')
  <-> coordinates_ok latitude longitude = true
      /\ days_ok days = true
      /\ h' = (h ++ [forecast_request self latitude longitude days])%list
      /\ ForecastResponse.location resp = WeatherLocation.mk latitude longitude
      /\ Forall2 (built_from times maxs mins precs codes)
                 (seq 0 (length times)) (ForecastResponse.forecasts resp).
Proof.
  intros Hdata Hdaily Harrays. rewrite get_forecast_ok_iff. split.
  - intros (Hc & Hd & Hh & data' & Hdata' & Hparse).
    assert (data' = data) as -> by (unfold ok in *; congruence).
    apply parse_forecast_ok_iff in Hparse
      as (daily' & times' & n & Hdaily' & Htimes & Hn & Hall & _ & Hloc).
    assert (daily' = JObj daily) as -> by (unfold ok in *; congruence).
    destruct Harrays as (Ht & Hrest). pose proof Htimes as Htimes'.
    cbn in Htimes'. rewrite Ht in Htimes'. injection Htimes' as <-.
    cbn in Hn. injection Hn as <-.
    repeat split; try assumption.
    eapply Forall2_impl; [exact Hall |].
    intros i d Hat. apply (forecast_at_arrays daily); [| exact Hat].
    split; assumption.
  - intros (Hc & Hd & Hh & Hloc & Hall). repeat split; try assumption.
    exists data. split; [assumption |].
    apply parse_forecast_ok_iff.
    exists (JObj daily), (JArr times), (length times).
    repeat split; try assumption.
    + cbn. destruct Harrays as (-> & _). reflexivity.
    + eapply Forall2_impl; [exact Hall |].
      intros i d Hat. apply (forecast_at_arrays daily) in Hat; assumption.
Qed.

Lemma built_from_surplus (times maxs mins precs codes xs1 xs2 xs3 xs4 : list json)
    (i : nat) (d : DailyForecast.t) :
  built_from times maxs mins precs codes i d ->
  built_from times (maxs ++ xs1) (mins ++ xs2) (precs ++ xs3) (codes ++ xs4) i d.
Proof.
  intros (t & mx & mn & p & c & Ht & Hmx & Hmn & Hp & Hc & Hrest).
  exists t, mx, mn, p, c. repeat split; try apply Hrest; try assumption.
  all: apply lookup_app_l_Some; assumption.
Qed.

(** The loop raises what the first failing index raises. *)
Lemma for_each_first_failure (daily : json) (n : nat) :
  forall (start k : nat) (acc : list DailyForecast.t) (e : exn),
    (k < n)%nat ->
    (forall j, (j < k)%nat -> exists d, forecast_at daily (start + j) = ok d) ->
    forecast_at daily (start + k) = throw e ->
    for_each (seq start n) (forecast_step daily) acc = throw e.
Proof.
  induction n as [| n IH]; intros start k acc e Hk Hbefore Hfail; [lia |].
  cbn [seq for_each]. rewrite forecast_step_at. unfold mbind, result_bind.
  destruct k as [| k].
  - rewrite Nat.add_0_r in Hfail. rewrite Hfail. reflexivity.
  - destruct (Hbefore 0%nat) as [d Hd]; [lia |].
    rewrite Nat.add_0_r in Hd. rewrite Hd. unfold ok at 1.
    apply (IH (S start) k); [lia | |].
    + intros j Hj. destruct (Hbefore (S j)) as [d' Hd']; [lia |].
      exists d'. rewrite <- Hd'. f_equal. lia.
    + rewrite <- Hfail. f_equal. lia.
Qed.
End LoopEdges.

(** X9: for valid inputs, when the ["time"] entry of the ["daily"] object
    has length zero, [get_forecast] succeeds with no forecast, whether or
    not the other arrays are there, and the handler returns the header
    line alone, which still announces the requested number of days. *)
Theorem empty_time_gives_header_only `{PyRuntime}
    (latitude longitude : float) (days : Z) (up : upstream) (h : list request)
    (data daily times : json) :
  coordinates_ok latitude longitude = true ->
  days_ok days = true ->
  read_answer (up h (forecast_request _client latitude longitude days)) = ok data ->
  py_getitem data "daily" = ok daily ->
  py_getitem daily "time" = ok times ->
  py_len times = ok 0%nat ->
  OpenMeteoClient.get_forecast _client latitude longitude days up h
  = (ok {| ForecastResponse.location := WeatherLocation.mk latitude longitude;
           ForecastResponse.forecasts := [] |},
     (h ++ [forecast_request _client latitude longitude days])%list)
  /\ get_forecast latitude longitude days up h
     = (ok (forecast_header latitude longitude days),
        (h ++ [forecast_request _client latitude longitude days])%list)
  /\ contains (str_int days) (forecast_header latitude longitude days).
Proof.
  intros Hc Hd Hdata Hdaily Htimes Hlen.
  assert (Hrun :
    OpenMeteoClient.get_forecast _client latitude longitude days up h
    = (ok {| ForecastResponse.location := WeatherLocation.mk latitude longitude;
             ForecastResponse.forecasts := [] |},
       (h ++ [forecast_request _client latitude longitude days])%list)).
  { apply get_forecast_ok_iff. repeat split; try assumption.
    exists data. split; [assumption |].
    apply parse_forecast_ok_iff. exists daily, times, 0%nat.
    repeat split; try assumption. constructor. }
  split; [exact Hrun | split].
  - rewrite (get_forecast_formats _ _ _ _ _ _ _ Hrun). reflexivity.
  - unfold forecast_header. find_substring.
Qed.

Lemma empty_time_gives_header_only_witness :
  get_forecast (H := sample_runtime) 52.52 13.41 7
    (always 200 (Some (JObj {[ "daily" := JObj {[ "time" := JArr [] ]} ]}))) []
  = (ok (forecast_header (H := sample_runtime) 52.52 13.41 7),
     [forecast_request _client 52.52 13.41 7]).
Proof.
  destruct (empty_time_gives_header_only (H := sample_runtime) 52.52 13.41 7
              (always 200 (Some (JObj {[ "daily" := JObj {[ "time" := JArr [] ]} ]})))
              [] (JObj {[ "daily" := JObj {[ "time" := JArr [] ]} ]})
              (JObj {[ "time" := JArr [] ]}) (JArr []))
    as (_ & Htext & _).
  - reflexivity.
  - reflexivity.
  - vm_compute. reflexivity.
  - vm_compute. reflexivity.
  - vm_compute. reflexivity.
  - reflexivity.
  - exact Htext.
Defined.

(** X10: elements that the other arrays hold beyond the length of the
    ["time"] array are never read: if [get_forecast] succeeds on a body,
    it succeeds with the same response on a body whose ["time"] array is
    the same and whose other arrays are extended by further elements,
    whatever these are. *)
Theorem surplus_elements_ignored `{PyRuntime}
    (self : OpenMeteoClient.t) (latitude longitude : float) (days : Z)
    (up up' : upstream) (h h' : list request)
    (data data' : json) (daily daily' : gmap string json)
    (times maxs mins precs codes xs1 xs2 xs3 xs4 : list json)
    (resp : ForecastResponse.t) :
  read_answer (up h (forecast_request self latitude longitude days)) = ok data ->
  py_getitem data "daily" = ok (JObj daily) ->
  daily_arrays daily times maxs mins precs codes ->
  read_answer (up' h (forecast_request self latitude longitude days)) = ok data' ->
  py_getitem data' "daily" = ok (JObj daily') ->
  daily_arrays daily' times (maxs ++ xs1) (mins ++ xs2) (precs ++ xs3) (codes ++ xs4) ->
  OpenMeteoClient.get_forecast self latitude longitude days up h = (ok resp, h') ->
  OpenMeteoClient.get_forecast self latitude longitude days up' h = (ok resp, h').
Proof.
  intros Hdata Hdaily Harrays Hdata' Hdaily' Harrays' Hrun.
  apply (get_forecast_arrays_iff _ _ _ _ _ _ _ _ _ _ _ _ _ _ _ Hdata Hdaily Harrays)
    in Hrun as (Hc & Hd & Hh & Hloc & Hall).
  apply (get_forecast_arrays_iff _ _ _ _ _ _ _ _ _ _ _ _ _ _ _ Hdata' Hdaily' Harrays').
  repeat split; try assumption.
  eapply Forall2_impl; [exact Hall |].
  intros i d. apply built_from_surplus.
Qed.

Lemma surplus_elements_ignored_witness :
  OpenMeteoClient.get_forecast (H := sample_runtime) _client 52.52 13.41 3
    (always 200 (Some (JObj {[ "daily" := JObj FORECAST_DAILY_SURPLUS ]}))) []
  = OpenMeteoClient.get_forecast (H := sample_runtime) _client 52.52 13.41 3
      (always 200 (Some FORECAST_RESPONSE)) [].
Proof.
  pose (run := OpenMeteoClient.get_forecast (H := sample_runtime) _client
                 52.52 13.41 3 (always 200 (Some FORECAST_RESPONSE)) []).
  assert (Hok : exists resp h', run = (ok resp, h')).
  { vm_compute. do 2 eexists. reflexivity. }
  destruct Hok as (resp & h' & Heq). unfold run in Heq. rewrite Heq.
  apply (surplus_elements_ignored (H := sample_runtime) _client 52.52 13.41 3
           (always 200 (Some FORECAST_RESPONSE))
           (always 200 (Some (JObj {[ "daily" := JObj FORECAST_DAILY_SURPLUS ]})))
           [] h' FORECAST_RESPONSE
           (JObj {[ "daily" := JObj FORECAST_DAILY_SURPLUS ]})
           FORECAST_DAILY FORECAST_DAILY_SURPLUS
           FORECAST_TIMES FORECAST_MAXS FORECAST_MINS FORECAST_PRECS FORECAST_CODES
           [JFloat 30] [JFloat 20] [JNull] [JInt 3] resp).
  - vm_compute. reflexivity.
  - vm_compute. reflexivity.
  - repeat split; vm_compute; reflexivity.
  - vm_compute. reflexivity.
  - vm_compute. reflexivity.
  - repeat split; vm_compute; reflexivity.
  - exact Heq.
Defined.

(** X11: for valid inputs, when the indices before [k] each yield a
    forecast and index [k], below the length of ["time"], raises, then
    [get_forecast] raises that same exception after its one request: the
    forecasts already built are dropped and later indices are not looked
    at. *)
Theorem first_failing_day_aborts `{PyRuntime}
    (self : OpenMeteoClient.t) (latitude longitude : float) (days : Z)
    (up : upstream) (h : list request) (data daily times : json)
    (n k : nat) (e : exn) :
  coordinates_ok latitude longitude = true ->
  days_ok days = true ->
  read_answer (up h (forecast_request self latitude longitude days)) = ok data ->
  py_getitem data "daily" = ok daily ->
  py_getitem daily "time" = ok times ->
  py_len times = ok n ->
  (k < n)%nat ->
  (forall j, (j < k)%nat -> exists d, forecast_at daily j = ok d) ->
  forecast_at daily k = throw e ->
  OpenMeteoClient.get_forecast self latitude longitude days up h
  = (throw e, (h ++ [forecast_request self latitude longitude days])%list).
Proof.
  intros Hc Hd Hdata Hdaily Htimes Hlen Hk Hbefore Hfail.
  rewrite (get_forecast_run _ _ _ _ _ _ Hc Hd), Hdata.
  assert (Hloop : for_each (range n) (OpenMeteoClient.forecast_step daily) []
                  = throw e).
  { apply (for_each_first_failure daily n 0 k [] e Hk); assumption. }
  unfold OpenMeteoClient.parse_forecast, mbind, result_bind, ok in *.
  rewrite Hdaily. cbv beta iota. rewrite Htimes. cbv beta iota.
  rewrite Hlen. cbv beta iota. rewrite Hloop. reflexivity.
Qed.

Lemma first_failing_day_aborts_witness :
  exists msg,
    OpenMeteoClient.get_forecast (H := sample_runtime) _client 52.52 13.41 3
      (always 200 (Some (JObj {[ "daily" := JObj FORECAST_DAILY_SHORT ]}))) []
    = (throw (Raised IndexError msg), [forecast_request _client 52.52 13.41 3]).
Proof.
  exists "<fault>".
  apply (first_failing_day_aborts (H := sample_runtime) _client 52.52 13.41 3
           (always 200 (Some (JObj {[ "daily" := JObj FORECAST_DAILY_SHORT ]}))) []
           (JObj {[ "daily" := JObj FORECAST_DAILY_SHORT ]})
           (JObj FORECAST_DAILY_SHORT) (JArr FORECAST_TIMES) 3 2).
  - reflexivity.
  - reflexivity.
  - vm_compute. reflexivity.
  - vm_compute. reflexivity.
  - vm_compute. reflexivity.
  - reflexivity.
  - lia.
  - intros j Hj.
    assert (j = 0 \/ j = 1)%nat as [-> | ->] by lia;
      vm_compute; eexists; reflexivity.
  - vm_compute. reflexivity.
Defined.

(** X12: when the ["weather_code"] array is shorter than the ["time"]
    array, the forecast for the first index it lacks raises [IndexError]
    before any other array is read at that index; so with valid inputs and
    the earlier indices converting, [get_forecast] raises [IndexError] and
    returns no partial forecast. *)
Theorem short_code_array_raises_IndexError `{PyRuntime}
    (self : OpenMeteoClient.t) (latitude longitude : float) (days : Z)
    (up : upstream) (h : list request) (data : json) (daily : gmap string json)
    (times codes : list json) :
  coordinates_ok latitude longitude = true ->
  days_ok days = true ->
  read_answer (up h (forecast_request self latitude longitude days)) = ok data ->
  py_getitem data "daily" = ok (JObj daily) ->
  daily !! "time" = Some (JArr times) ->
  daily !! "weather_code" = Some (JArr codes) ->
  (length codes < length times)%nat ->
  (forall j, (j < length codes)%nat -> exists d, forecast_at (JObj daily) j = ok d) ->
  OpenMeteoClient.get_forecast self latitude longitude days up h
  = (throw (Raised IndexError (fault_msg (IndexOutOfRange (JArr codes)))),
     (h ++ [forecast_request self latitude longitude days])%list).
Proof.
  intros Hc Hd Hdata Hdaily Htimes Hcodes Hshort Hbefore.
  apply (first_failing_day_aborts self latitude longitude days up h data
           (JObj daily) (JArr times) (length times) (length codes));
    try assumption.
  - cbn. rewrite Htimes. reflexivity.
  - reflexivity.
  - unfold forecast_at, mbind, result_bind, py_getitem. rewrite Hcodes.
    unfold ok at 1. cbv beta iota. unfold py_index.
    rewrite (lookup_ge_None_2 codes (length codes)) by lia. reflexivity.
Qed.

Lemma short_code_array_raises_IndexError_witness :
  OpenMeteoClient.get_forecast (H := sample_runtime) _client 52.52 13.41 3
    (always 200 (Some (JObj {[ "daily" := JObj FORECAST_DAILY_SHORT ]}))) []
  = (throw (Raised IndexError "<fault>"), [forecast_request _client 52.52 13.41 3]).
Proof.
  apply (short_code_array_raises_IndexError (H := sample_runtime) _client
           52.52 13.41 3
           (always 200 (Some (JObj {[ "daily" := JObj FORECAST_DAILY_SHORT ]}))) []
           (JObj {[ "daily" := JObj FORECAST_DAILY_SHORT ]})
           FORECAST_DAILY_SHORT FORECAST_TIMES [JInt 0; JInt 63]).
  - reflexivity.
  - reflexivity.
  - vm_compute. reflexivity.
  - vm_compute. reflexivity.
  - vm_compute. reflexivity.
  - vm_compute. reflexivity.
  - cbn. lia.
  - intros j Hj. cbn in Hj.
    assert (j = 0 \/ j = 1)%nat as [-> | ->] by lia;
      vm_compute; eexists; reflexivity.
Defined.

(** ** Condition strings determine their code *)

Lemma WMO_TABLE_reverse_lookup :
  Forall (fun entry : Z * string => code_of_name (snd entry) = Some (fst entry))
         WMO_TABLE.
Proof. unfold WMO_TABLE. repeat constructor. Qed.

Lemma WMO_TABLE_names_not_Unknown :
  Forall (fun entry : Z * string => String.prefix "Unknown" (snd entry) = false)
         WMO_TABLE.
Proof. unfold WMO_TABLE. repeat constructor. Qed.

Lemma WMO_CODES_lookup_entry (code : Z) (name : string) :
  WMO_CODES !! code = Some name ->
  code_of_name name = Some code /\ String.prefix "Unknown" name = false.
Proof.
  intros Hl. apply elem_of_list_to_map_2 in Hl. split.
  - exact (proj1 (Forall_forall _ _) WMO_TABLE_reverse_lookup _ Hl).
  - exact (proj1 (Forall_forall _ _) WMO_TABLE_names_not_Unknown _ Hl).
Qed.

Lemma length_append_string (a b : string) :
  String.length (a ++ b) = (String.length a + String.length b)%nat.
Proof.
  induction a as [| x a IH]; [reflexivity |].
  rewrite append_cons. cbn [String.length]. rewrite IH. reflexivity.
Qed.

Lemma append_cancel_r (a b tail : string) :
  tail <> "" -> a ++ tail = b ++ tail -> a = b.
Proof.
  intros Htail. revert b. induction a as [| x a IH]; intros b Heq.
  - destruct b as [| y b]; [reflexivity |].
    exfalso. rewrite append_cons in Heq. cbn in Heq.
    assert (Hlen : String.length tail
                   = String.length (String y (b ++ tail))) by (rewrite <- Heq; reflexivity).
    cbn in Hlen. rewrite length_append_string in Hlen. lia.
  - destruct b as [| y b].
    + exfalso. rewrite append_cons in Heq. cbn in Heq.
      assert (Hlen : String.length (String x (a ++ tail))
                     = String.length tail) by (rewrite Heq; reflexivity).
      cbn in Hlen. rewrite length_append_string in Hlen. lia.
    + rewrite !append_cons in Heq. injection Heq as -> Heq.
      f_equal. apply IH. exact Heq.
Qed.

(** X13: distinct weather codes have distinct condition strings, so the
    text shown to the caller determines the code: for two distinct codes
    at least one of which can be rendered, the lookup gives different
    results, and whenever it returns for both, the two strings differ.
    Table names are pairwise distinct, none begins with "Unknown", and the
    fallback text embeds the code itself.  (Two distinct codes of more
    than 4300 digits each both make the lookup raise.) *)
Theorem weather_code_to_conditions_injective `{PyRuntime} (code1 code2 : Z) :
  code1 <> code2 ->
  (within_str_limit code1 = true \/ within_str_limit code2 = true ->
   weather_code_to_conditions code1 <> weather_code_to_conditions code2)
  /\ (forall name1 name2 : string,
        weather_code_to_conditions code1 = ok name1 ->
        weather_code_to_conditions code2 = ok name2 ->
        name1 <> name2).
Proof.
  intros Hne.
  assert (Hnames : forall name1 name2 : string,
             weather_code_to_conditions code1 = ok name1 ->
             weather_code_to_conditions code2 = ok name2 ->
             name1 <> name2).
  { intros name1 name2 Hname1 Hname2 Heq. apply Hne.
    apply weather_code_to_conditions_ok_inv in Hname1 as [_ Hname1].
    apply weather_code_to_conditions_ok_inv in Hname2 as [_ Hname2].
    subst name1 name2. revert Heq.
    destruct (WMO_CODES !! code1) as [known1 |] eqn:H1;
      destruct (WMO_CODES !! code2) as [known2 |] eqn:H2; intros Heq.
    - subst known2.
      apply WMO_CODES_lookup_entry in H1 as [H1 _].
      apply WMO_CODES_lookup_entry in H2 as [H2 _]. congruence.
    - apply WMO_CODES_lookup_entry in H1 as [_ H1]. subst known1.
      assert (Hp : String.prefix "Unknown" ("Unknown (code " ++ str_int code2 ++ ")")
                   = true)
        by exact (prefix_append "Unknown" (" (code " ++ str_int code2 ++ ")")).
      congruence.
    - apply WMO_CODES_lookup_entry in H2 as [_ H2]. subst known2.
      assert (Hp : String.prefix "Unknown" ("Unknown (code " ++ str_int code1 ++ ")")
                   = true)
        by exact (prefix_append "Unknown" (" (code " ++ str_int code1 ++ ")")).
      congruence.
    - apply (inj (String.app "Unknown (code ")) in Heq.
      apply append_cancel_r in Heq; [| discriminate].
      unfold str_int in Heq. exact (inj pretty _ _ Heq). }
  split; [| exact Hnames].
  intros Hsome Heq.
  destruct (within_str_limit code1) eqn:Hl1, (within_str_limit code2) eqn:Hl2.
  - rewrite (weather_code_to_conditions_ok _ Hl1) in Heq.
    apply (Hnames _ _ (weather_code_to_conditions_ok _ Hl1)
                      (weather_code_to_conditions_ok _ Hl2)).
    rewrite (weather_code_to_conditions_ok _ Hl2) in Heq.
    exact (ok_inj _ _ Heq).
  - rewrite (weather_code_to_conditions_ok _ Hl1),
            (weather_code_to_conditions_raises _ Hl2) in Heq.
    unfold ok, throw in Heq. discriminate Heq.
  - rewrite (weather_code_to_conditions_raises _ Hl1),
            (weather_code_to_conditions_ok _ Hl2) in Heq.
    unfold ok, throw in Heq. discriminate Heq.
  - destruct Hsome as [Hsome | Hsome]; discriminate Hsome.
Qed.

Lemma weather_code_to_conditions_injective_witness :
  weather_code_to_conditions (H := sample_runtime) 61
  <> weather_code_to_conditions (H := sample_runtime) 80
  /\ weather_code_to_conditions (H := sample_runtime) 4
     <> weather_code_to_conditions (H := sample_runtime) 40
  /\ "Slight rain" <> "Slight rain showers".
Proof.
  split; [| split].
  - destruct (weather_code_to_conditions_injective (H := sample_runtime) 61 80)
      as [Hresults _]; [discriminate |].
    apply Hresults. left. vm_compute. reflexivity.
  - destruct (weather_code_to_conditions_injective (H := sample_runtime) 4 40)
      as [Hresults _]; [discriminate |].
    apply Hresults. left. vm_compute. reflexivity.
  - destruct (weather_code_to_conditions_injective (H := sample_runtime) 61 80)
      as [_ Hnames]; [discriminate |].
    apply Hnames; vm_compute; reflexivity.
Defined.

(** ** Coordinates that are not numbers, and the order of the checks *)

Lemma SFeqb_self_false (f : spec_float) : SFeqb f f = false -> f = S754_nan.
Proof.
  unfold SFeqb. destruct f as [s | s | | s m e]; cbn; try reflexivity.
  - discriminate.
  - destruct s; discriminate.
  - rewrite Z.compare_refl, Pos.compare_cont_refl. destruct s; discriminate.
Qed.

Lemma nan_not_within (lo hi x : float) :
  PrimFloat.eqb x x = false -> WeatherLocation.within lo hi x = false.
Proof.
  intros Hnan. rewrite FloatAxioms.eqb_spec in Hnan. apply SFeqb_self_false in Hnan.
  unfold WeatherLocation.within. rewrite leb_spec, Hnan.
  unfold SFleb, SFcompare. destruct (Prim2SF lo); reflexivity.
Qed.

(** X14: a coordinate that is a NaN (a float that differs from itself) is
    rejected like one out of range: both client methods raise
    [ValueError] without sending a request. *)
Theorem nan_coordinates_rejected `{PyRuntime}
    (self : OpenMeteoClient.t) (latitude longitude : float) (days : Z)
    (up : upstream) (h : list request) :
  PrimFloat.eqb latitude latitude = false
  \/ PrimFloat.eqb longitude longitude = false ->
  (exists msg,
     OpenMeteoClient.get_current_weather self latitude longitude up h
     = (throw (Raised ValueError msg), h))
  /\ (exists msg,
        OpenMeteoClient.get_forecast self latitude longitude days up h
        = (throw (Raised ValueError msg), h)).
Proof.
  intros Hnan.
  assert (Hc : coordinates_ok latitude longitude = false).
  { unfold coordinates_ok. destruct Hnan as [Hlat | Hlon].
    - rewrite (nan_not_within _ _ _ Hlat). reflexivity.
    - rewrite (nan_not_within _ _ _ Hlon). apply andb_false_r. }
  split.
  - apply get_current_weather_rejected. exact Hc.
  - apply get_forecast_rejected. rewrite Hc. reflexivity.
Qed.

Lemma nan_coordinates_rejected_witness :
  exists msg,
    OpenMeteoClient.get_current_weather (H := sample_runtime) _client nan 0
      (always 200 (Some CURRENT_WEATHER_RESPONSE)) []
    = (throw (Raised ValueError msg), []).
Proof.
  destruct (nan_coordinates_rejected (H := sample_runtime) _client nan 0 7
              (always 200 (Some CURRENT_WEATHER_RESPONSE)) [])
    as [Hcurrent _].
  - left. reflexivity.
  - exact Hcurrent.
Defined.

(** X15: the checks run in the order latitude, longitude, days, and the
    first one that fails decides the message: a latitude out of range is
    reported whatever the longitude and [days] are, and a longitude out of
    range is reported whatever [days] is.  The handler returns that
    message after "Error: ".  For [days] out of range with valid
    coordinates it is the message of the days check when [days] has at
    most 4300 digits, and the message of the failed conversion of [days]
    to text beyond that. *)
Theorem first_failed_check_is_reported `{PyRuntime}
    (latitude longitude : float) (days : Z) (up : upstream) (h : list request) :
  (WeatherLocation.within (-90) 90 latitude = false ->
   get_current_weather latitude longitude up h
   = (ok ("Error: Latitude must be between -90 and 90, got "
          ++ float_repr latitude), h)
   /\ get_forecast latitude longitude days up h
      = (ok ("Error: Latitude must be between -90 and 90, got "
             ++ float_repr latitude), h))
  /\ (WeatherLocation.within (-90) 90 latitude = true ->
      WeatherLocation.within (-180) 180 longitude = false ->
      get_current_weather latitude longitude up h
      = (ok ("Error: Longitude must be between -180 and 180, got "
             ++ float_repr longitude), h)
      /\ get_forecast latitude longitude days up h
         = (ok ("Error: Longitude must be between -180 and 180, got "
                ++ float_repr longitude), h))
  /\ (coordinates_ok latitude longitude = true ->
      days_ok days = false ->
      get_forecast latitude longitude days up h
      = (ok ("Error: "
             ++ (if within_str_limit days
                 then "Days must be between 1 and 16, got " ++ str_int days
                 else fault_msg IntTooLongForStr)), h)).
Proof.
  split; [| split].
  - intros Hlat.
    assert (Hv : OpenMeteoClient._validate_coordinates latitude longitude
                 = throw (Raised ValueError
                            ("Latitude must be between -90 and 90, got "
                             ++ float_repr latitude))).
    { unfold OpenMeteoClient._validate_coordinates.
      unfold WeatherLocation.within in Hlat. rewrite Hlat. reflexivity. }
    split.
    + rewrite (get_current_weather_recovers latitude longitude up h h
                 (Raised ValueError ("Latitude must be between -90 and 90, got "
                                     ++ float_repr latitude))); [reflexivity |].
      unfold OpenMeteoClient.get_current_weather, mbind, io_bind, lift.
      rewrite Hv. reflexivity.
    + rewrite (get_forecast_recovers latitude longitude days up h h
                 (Raised ValueError ("Latitude must be between -90 and 90, got "
                                     ++ float_repr latitude))); [reflexivity |].
      unfold OpenMeteoClient.get_forecast, mbind, io_bind, lift.
      rewrite Hv. reflexivity.
  - intros Hlat Hlon.
    assert (Hv : OpenMeteoClient._validate_coordinates latitude longitude
                 = throw (Raised ValueError
                            ("Longitude must be between -180 and 180, got "
                             ++ float_repr longitude))).
    { unfold OpenMeteoClient._validate_coordinates.
      unfold WeatherLocation.within in Hlat, Hlon. rewrite Hlat, Hlon.
      reflexivity. }
    split.
    + rewrite (get_current_weather_recovers latitude longitude up h h
                 (Raised ValueError ("Longitude must be between -180 and 180, got "
                                     ++ float_repr longitude))); [reflexivity |].
      unfold OpenMeteoClient.get_current_weather, mbind, io_bind, lift.
      rewrite Hv. reflexivity.
    + rewrite (get_forecast_recovers latitude longitude days up h h
                 (Raised ValueError ("Longitude must be between -180 and 180, got "
                                     ++ float_repr longitude))); [reflexivity |].
      unfold OpenMeteoClient.get_forecast, mbind, io_bind, lift.
      rewrite Hv. reflexivity.
  - intros Hc Hd.
    rewrite (get_forecast_recovers latitude longitude days up h h
               (Raised ValueError
                  (if within_str_limit days
                   then "Days must be between 1 and 16, got " ++ str_int days
                   else fault_msg IntTooLongForStr))); [reflexivity |].
    unfold OpenMeteoClient.get_forecast, mbind, io_bind, lift.
    rewrite (validate_passes _ _ Hc). unfold days_ok in Hd. rewrite Hd.
    unfold py_str_int. destruct (within_str_limit days); reflexivity.
Qed.

Lemma first_failed_check_is_reported_witness :
  get_forecast (H := sample_runtime) 200 500 0 (always 200 None) []
  = (ok "Error: Latitude must be between -90 and 90, got <float>", [])
  /\ get_forecast (H := sample_runtime) 0 500 0 (always 200 None) []
     = (ok "Error: Longitude must be between -180 and 180, got <float>", [])
  /\ get_forecast (H := sample_runtime) 0 0 0 (always 200 None) []
     = (ok "Error: Days must be between 1 and 16, got 0", [])
  /\ get_forecast (H := sample_runtime) 0 0 (10 ^ 4300) (always 200 None) []
     = (ok "Error: <fault>", []).
Proof.
  split; [| split; [| split]].
  - destruct (first_failed_check_is_reported (H := sample_runtime) 200 500 0
                (always 200 None) []) as (Hlat & _).
    destruct (Hlat eq_refl) as [_ Hforecast]. exact Hforecast.
  - destruct (first_failed_check_is_reported (H := sample_runtime) 0 500 0
                (always 200 None) []) as (_ & Hlon & _).
    destruct (Hlon eq_refl eq_refl) as [_ Hforecast]. exact Hforecast.
  - destruct (first_failed_check_is_reported (H := sample_runtime) 0 0 0
                (always 200 None) []) as (_ & _ & Hdays).
    exact (Hdays eq_refl eq_refl).
  - destruct (first_failed_check_is_reported (H := sample_runtime) 0 0 (10 ^ 4300)
                (always 200 None) []) as (_ & _ & Hdays).
    rewrite Hdays; [| reflexivity | vm_compute; reflexivity].
    assert (Hlimit : within_str_limit (10 ^ 4300) = false)
      by (vm_compute; reflexivity).
    rewrite Hlimit. reflexivity.
Defined.

(** ** Entry point *)

Section EntryRuns.
Context `{PyRuntime}.

Lemma _parse_args_run (argv : argparse.supplied) (environ : gmap string string) :
  _parse_args argv environ
  = match int_of_str (environ_get environ "MCP_PORT" "8000") with
    | Some default_port =>
        let args :=
          argparse.parse_args argv (environ_get environ "MCP_TRANSPORT" "stdio")
            (environ_get environ "MCP_HOST" "0.0.0.0") default_port in
        ok (argparse.transport args,
            <["FASTMCP_PORT" := str_int (argparse.port args)]>
              (<["FASTMCP_HOST" := argparse.host args]> environ))
    | None =>
        throw (Raised ValueError
                 (fault_msg (BadIntLiteral (environ_get environ "MCP_PORT" "8000"))))
    end.
Proof.
  unfold _parse_args, int_of_environ, py_int, mbind, result_bind, raise_fault.
  destruct (int_of_str _); reflexivity.
Qed.

Lemma environ_get_after_parse (environ : gmap string string) (h p : string) :
  environ_get (<["FASTMCP_PORT" := p]> (<["FASTMCP_HOST" := h]> environ))
    "FASTMCP_HOST" "0.0.0.0" = h
  /\ environ_get (<["FASTMCP_PORT" := p]> (<["FASTMCP_HOST" := h]> environ))
       "FASTMCP_PORT" "8000" = p.
Proof.
  unfold environ_get. split.
  - rewrite lookup_insert_ne by discriminate. rewrite lookup_insert_eq. reflexivity.
  - rewrite lookup_insert_eq. reflexivity.
Qed.
End EntryRuns.

(** X16: when the value of [MCP_PORT] (or "8000") reads as an integer and
    the chosen port reads back from its decimal text, [main] starts the
    server with the transport, host and port that [parse_args] chose:
    the command line first, then [MCP_TRANSPORT], [MCP_HOST] and
    [MCP_PORT], then "stdio", "0.0.0.0" and 8000.  Values of
    [FASTMCP_HOST] and [FASTMCP_PORT] found in the environment play no
    part: both are overwritten with the chosen host and port. *)
Theorem main_applies_parsed_arguments `{PyRuntime} {Security : Type}
    (argv : argparse.supplied) (environ : gmap string string)
    (settings : Settings Security) (default_port : Z) :
  int_of_str (environ_get environ "MCP_PORT" "8000") = Some default_port ->
  int_of_str
    (str_int (argparse.port
                (argparse.parse_args argv (environ_get environ "MCP_TRANSPORT" "stdio")
                   (environ_get environ "MCP_HOST" "0.0.0.0") default_port)))
  = Some (argparse.port
            (argparse.parse_args argv (environ_get environ "MCP_TRANSPORT" "stdio")
               (environ_get environ "MCP_HOST" "0.0.0.0") default_port)) ->
  main argv environ settings
  = ok (let args :=
          argparse.parse_args argv (environ_get environ "MCP_TRANSPORT" "stdio")
            (environ_get environ "MCP_HOST" "0.0.0.0") default_port in
        {| launch_transport := argparse.transport args;
           launch_settings :=
             {| settings_host := argparse.host args;
                settings_port := argparse.port args;
                transport_security :=
                  if is_loopback (argparse.host args)
                  then transport_security settings else None |};
           launch_environ :=
             <["FASTMCP_PORT" := str_int (argparse.port args)]>
               (<["FASTMCP_HOST" := argparse.host args]> environ) |}).
Proof.
  intros Hdefault Hback. unfold main. rewrite _parse_args_run, Hdefault.
  cbv zeta. unfold mbind, result_bind, ok. cbn [fst snd].
  destruct (environ_get_after_parse environ
              (argparse.host
                 (argparse.parse_args argv (environ_get environ "MCP_TRANSPORT" "stdio")
                    (environ_get environ "MCP_HOST" "0.0.0.0") default_port))
              (str_int
                 (argparse.port
                    (argparse.parse_args argv
                       (environ_get environ "MCP_TRANSPORT" "stdio")
                       (environ_get environ "MCP_HOST" "0.0.0.0") default_port))))
    as [-> ->].
  unfold int_of_environ, py_int. rewrite Hback. unfold ok.
  destruct (is_loopback _); reflexivity.
Qed.

Lemma main_applies_parsed_arguments_witness :
  main (H := sample_runtime) (Security := unit)
    {| argparse.opt_transport := Some "sse"; argparse.opt_host := None;
       argparse.opt_port := Some 9000 |}
    {[ "MCP_HOST" := "127.0.0.1"; "FASTMCP_HOST" := "10.0.0.1" ]}
    {| settings_host := "127.0.0.1"; settings_port := 8000;
       transport_security := Some tt |}
  = ok {| launch_transport := "sse";
          launch_settings := {| settings_host := "127.0.0.1"; settings_port := 9000;
                                transport_security := Some tt |};
          launch_environ :=
            <["FASTMCP_PORT" := "9000"]>
              (<["FASTMCP_HOST" := "127.0.0.1"]>
                 {[ "MCP_HOST" := "127.0.0.1"; "FASTMCP_HOST" := "10.0.0.1" ]}) |}.
Proof.
  rewrite (main_applies_parsed_arguments (H := sample_runtime)
             {| argparse.opt_transport := Some "sse"; argparse.opt_host := None;
                argparse.opt_port := Some 9000 |}
             {[ "MCP_HOST" := "127.0.0.1"; "FASTMCP_HOST" := "10.0.0.1" ]}
             {| settings_host := "127.0.0.1"; settings_port := 8000;
                transport_security := Some tt |} 8000).
  - vm_compute. reflexivity.
  - vm_compute. reflexivity.
  - vm_compute. reflexivity.
Defined.

(** X17: whenever [main] reaches [mcp.run], the host it has set is the one
    [parse_args] chose; if that host is none of "127.0.0.1", "localhost"
    and "::1" the transport security setting has been cleared, and
    otherwise it is left as it was.  With no [--host] option and no
    [MCP_HOST] the host is "0.0.0.0", so the setting is cleared. *)
Theorem non_loopback_host_clears_transport_security `{PyRuntime} {Security : Type}
    (argv : argparse.supplied) (environ : gmap string string)
    (settings : Settings Security) (launch : Launch Security) :
  main argv environ settings = ok launch ->
  settings_host (launch_settings launch)
  = match argparse.opt_host argv with
    | Some given => given
    | None => environ_get environ "MCP_HOST" "0.0.0.0"
    end
  /\ (is_loopback (settings_host (launch_settings launch)) = false ->
      transport_security (launch_settings launch) = None)
  /\ (is_loopback (settings_host (launch_settings launch)) = true ->
      transport_security (launch_settings launch) = transport_security settings)
  /\ (argparse.opt_host argv = None -> environ !! "MCP_HOST" = None ->
      settings_host (launch_settings launch) = "0.0.0.0"
      /\ transport_security (launch_settings launch) = None).
Proof.
  unfold main. rewrite _parse_args_run.
  destruct (int_of_str (environ_get environ "MCP_PORT" "8000"))
    as [default_port |]; [| intros [=]].
  cbv zeta. unfold mbind, result_bind, ok. cbn [fst snd].
  destruct (environ_get_after_parse environ
              (argparse.host
                 (argparse.parse_args argv (environ_get environ "MCP_TRANSPORT" "stdio")
                    (environ_get environ "MCP_HOST" "0.0.0.0") default_port))
              (str_int
                 (argparse.port
                    (argparse.parse_args argv
                       (environ_get environ "MCP_TRANSPORT" "stdio")
                       (environ_get environ "MCP_HOST" "0.0.0.0") default_port))))
    as [-> ->].
  destruct (int_of_environ _) as [e | new_port]; [intros [=] |].
  intros [= <-]. cbn.
  split; [reflexivity |].
  split; [intros ->; reflexivity |].
  split; [intros ->; reflexivity |].
  intros Hnone Hunset. rewrite Hnone. unfold environ_get. rewrite Hunset.
  split; reflexivity.
Qed.

Lemma non_loopback_host_clears_transport_security_witness :
  exists launch,
    main (H := sample_runtime) (Security := unit)
      {| argparse.opt_transport := None; argparse.opt_host := None;
         argparse.opt_port := None |}
      ∅
      {| settings_host := "127.0.0.1"; settings_port := 8000;
         transport_security := Some tt |}
    = ok launch
    /\ settings_host (launch_settings launch) = "0.0.0.0"
    /\ transport_security (launch_settings launch) = None.
Proof.
  pose (run := main (H := sample_runtime) (Security := unit)
                 {| argparse.opt_transport := None; argparse.opt_host := None;
                    argparse.opt_port := None |}
                 ∅
                 {| settings_host := "127.0.0.1"; settings_port := 8000;
                    transport_security := Some tt |}).
  assert (Hok : exists launch, run = ok launch).
  { vm_compute. eexists. reflexivity. }
  destruct Hok as [launch Heq]. unfold run in Heq.
  exists launch. split; [exact Heq |].
  destruct (non_loopback_host_clears_transport_security (H := sample_runtime)
              _ _ _ _ Heq) as (_ & _ & _ & Hdefault).
  apply Hdefault; reflexivity.
Defined.

(** X18: when the value of [MCP_PORT] does not read as an integer, [main]
    raises [ValueError] while the parser is being built, whatever the
    command line holds, a [--port] option included. *)
Theorem bad_MCP_PORT_raises `{PyRuntime} {Security : Type}
    (argv : argparse.supplied) (environ : gmap string string)
    (settings : Settings Security) (value : string) :
  environ !! "MCP_PORT" = Some value ->
  int_of_str value = None ->
  main argv environ settings
  = throw (Raised ValueError (fault_msg (BadIntLiteral value))).
Proof.
  intros Hvalue Hbad. unfold main. rewrite _parse_args_run.
  unfold environ_get. rewrite Hvalue, Hbad. reflexivity.
Qed.

Lemma bad_MCP_PORT_raises_witness :
  main (H := sample_runtime) (Security := unit)
    {| argparse.opt_transport := None; argparse.opt_host := None;
       argparse.opt_port := Some 9000 |}
    {[ "MCP_PORT" := "http" ]}
    {| settings_host := "127.0.0.1"; settings_port := 8000;
       transport_security := Some tt |}
  = throw (Raised ValueError "<fault>").
Proof.
  apply (bad_MCP_PORT_raises (H := sample_runtime) (Security := unit)
           {| argparse.opt_transport := None; argparse.opt_host := None;
              argparse.opt_port := Some 9000 |}
           {[ "MCP_PORT" := "http" ]}
           {| settings_host := "127.0.0.1"; settings_port := 8000;
              transport_security := Some tt |} "http").
  - vm_compute. reflexivity.
  - vm_compute. reflexivity.
Defined.

(** ** Bodies that are not objects *)

Section NonObjects.
Context `{PyRuntime}.

(** A JSON value that is not an object either fails the test for an error
    entry, or passes it and fails the subscript that follows. *)
Lemma non_object_never_parsed (resp : response) (body : json) (key : string) :
  httpx.is_success resp = true ->
  resp_json resp = Some body ->
  is_object body = false ->
  exists msg,
    (read_answer (ok resp) ≫= fun data => py_getitem data key)
    = throw (Raised TypeError msg).
Proof.
  intros Hs Hbody Hobj.
  unfold read_answer, httpx.raise_for_status, httpx.json_of, mbind, result_bind, ok.
  rewrite Hs, Hbody.
  destruct body as [| b | n | x | s | xs | kvs]; try discriminate Hobj;
    cbn [py_in py_getitem]; unfold raise_fault, throw, ok; cbn [fault_class];
    try (eexists; reflexivity).
  - destruct (substringb "error" s); eexists; reflexivity.
  - destruct (existsb _ xs); eexists; reflexivity.
Qed.
End NonObjects.

(** X19: for valid inputs, a 2xx answer whose body is JSON but not an
    object (null, a boolean, a number, a string or a list) makes both
    client methods raise [TypeError] after the one request, and the
    handlers report an unexpected error. *)
Theorem non_object_body_is_unexpected `{PyRuntime}
    (latitude longitude : float) (days : Z) (up : upstream) (h : list request)
    (status : Z) (body : json) :
  coordinates_ok latitude longitude = true ->
  200 <= status <= 299 ->
  is_object body = false ->
  (up h (current_request _client latitude longitude)
   = ok (mk_response status (Some body)) ->
   exists msg,
     OpenMeteoClient.get_current_weather _client latitude longitude up h
     = (throw (Raised TypeError msg),
        (h ++ [current_request _client latitude longitude])%list)
     /\ get_current_weather latitude longitude up h
        = (ok ("Error: An unexpected error occurred – " ++ msg),
           (h ++ [current_request _client latitude longitude])%list))
  /\ (days_ok days = true ->
      up h (forecast_request _client latitude longitude days)
      = ok (mk_response status (Some body)) ->
      exists msg,
        OpenMeteoClient.get_forecast _client latitude longitude days up h
        = (throw (Raised TypeError msg),
           (h ++ [forecast_request _client latitude longitude days])%list)
        /\ get_forecast latitude longitude days up h
           = (ok ("Error: An unexpected error occurred – " ++ msg),
              (h ++ [forecast_request _client latitude longitude days])%list)).
Proof.
  intros Hc Hs Hobj.
  assert (Hsucc : httpx.is_success (mk_response status (Some body)) = true)
    by (unfold httpx.is_success; cbn [resp_status]; lia).
  split.
  - intros Hup.
    destruct (non_object_never_parsed _ body "current" Hsucc eq_refl Hobj)
      as [msg Hmsg].
    exists msg.
    assert (Hrun :
      OpenMeteoClient.get_current_weather _client latitude longitude up h
      = (throw (Raised TypeError msg),
         (h ++ [current_request _client latitude longitude])%list)).
    { rewrite (get_current_weather_run _ _ _ _ _ Hc), Hup.
      f_equal. revert Hmsg.
      unfold OpenMeteoClient.parse_current, mbind, result_bind.
      destruct (read_answer _) as [e | data];
        [unfold throw; intros [= ->]; reflexivity |].
      intros ->. reflexivity. }
    split; [exact Hrun |].
    rewrite (get_current_weather_recovers _ _ _ _ _ _ Hrun). reflexivity.
  - intros Hd Hup.
    destruct (non_object_never_parsed _ body "daily" Hsucc eq_refl Hobj)
      as [msg Hmsg].
    exists msg.
    assert (Hrun :
      OpenMeteoClient.get_forecast _client latitude longitude days up h
      = (throw (Raised TypeError msg),
         (h ++ [forecast_request _client latitude longitude days])%list)).
    { rewrite (get_forecast_run _ _ _ _ _ _ Hc Hd), Hup.
      f_equal. revert Hmsg.
      unfold OpenMeteoClient.parse_forecast, mbind, result_bind.
      destruct (read_answer _) as [e | data];
        [unfold throw; intros [= ->]; reflexivity |].
      intros ->. reflexivity. }
    split; [exact Hrun |].
    rewrite (get_forecast_recovers _ _ _ _ _ _ _ Hrun). reflexivity.
Qed.

Lemma non_object_body_is_unexpected_witness :
  get_current_weather (H := sample_runtime) 52.52 13.41
    (always 200 (Some (JArr [JStr "error"]))) []
  = (ok "Error: An unexpected error occurred – <fault>",
     [current_request _client 52.52 13.41]).
Proof.
  destruct (non_object_body_is_unexpected (H := sample_runtime) 52.52 13.41 7
              (always 200 (Some (JArr [JStr "error"]))) [] 200 (JArr [JStr "error"]))
    as [Hcurrent _].
  - reflexivity.
  - lia.
  - reflexivity.
  - destruct (Hcurrent eq_refl) as (msg & Hrun & Htext).
    rewrite Htext. revert Hrun. vm_compute. intros [= <-]. reflexivity.
Defined.
